(** * clowder2 frontend: dataset detail view and change-role dialog

    A shallow embedding of two React components,

    - [Dataset]  (frontend/src/components/datasets/Dataset.tsx) and
    - [ChangeDatasetRoleModal]  (the share / change-role dialog),

    together with the properties of their view state: page flipping,
    button disabling, role-gated tabs, the requests they dispatch and the
    merge of pending metadata forms.

    Conventions of the embedding.

    - A component's [useState] cells are the fields of a record [State];
      a state setter is a record update.  A handler or an effect body is a
      function of the values of the render it closes over, so every read in
      a body goes to the snapshot it is given, and the setters are applied
      to that same snapshot in program order.
    - [dispatch(...)] of a Redux thunk is recorded as an [Action] appended to
      a log; the thunk's network traffic and its reducers are outside these
      components.
    - What [useSelector] and the router give to the component (fetched
      batches, role, the folder in the URL) is the record [Selected] and
      [Route]; it changes only through events.
    - [useEffect(f, deps)] runs [f] after the first render and after each
      later render in which a member of [deps] differs from the previous
      render ([Object.is]): numbers by value, arrays and objects by
      reference.  Every fetched batch is a fresh array.
    - JavaScript numbers are modelled by [Z]: page numbers, offsets and
      lengths are integers far below 2^53 here. *)

From Stdlib Require Import ZArith List String Bool Lia.
From stdpp Require Import base option gmap strings.

Import ListNotations.
Local Open Scope string_scope.
Local Open Scope Z_scope.

(* ===================================================================== *)
(** ** The dataset detail view *)
(* ===================================================================== *)

Module Dataset.

Section Component.

(** Entries of the fetched batches and the values of metadata fields are
    opaque to the component: it reads the batches' [length] only and copies
    field values. *)
Variables FileOut FolderOut JsValue : Type.

(** A pending metadata form ([metadata : any] in [setMetadata]): the key of
    its metadata definition, its [content] object and an optional [id]. *)
Record Metadata := mkMetadata {
  definition : string;
  content : gmap string JsValue;
  id : option string }.

(** One breadcrumb, [{name, url}]. *)
Record Breadcrumb := mkBreadcrumb { name : string; url : string }.

(** One element of [folderPath]. *)
Record FolderBread := mkFolderBread { folder_name : string; folder_id : string }.

(** [state.dataset.about], as far as the component reads it. *)
Record About := mkAbout { about_name : string; about_description : string }.

(** The [useState] cells of the component, in declaration order. *)
Record State := mkState {
  selectedTabIndex : Z;
  enableAddMetadata : bool;
  metadataRequestForms : gmap string Metadata;
  allowSubmit : bool;
  errorOpen : bool;
  showForbiddenPage : bool;
  showNotFoundPage : bool;
  paths : list Breadcrumb;
  currPageNum : Z;
  limit : Z;
  skip : option Z;
  prevDisabled : bool;
  nextDisabled : bool }.

(** Route data: [useParams().datasetId] and [searchParams.get("folder")]. *)
Record Route := mkRoute {
  datasetId : option string;
  folderId : option string }.

(** What [useSelector] reads from the Redux store. *)
Record Selected := mkSelected {
  about : About;
  role : option string;             (* datasetRole.role *)
  folderPath : option (list FolderBread);
  filesInDataset : list FileOut;
  foldersInDataset : list FolderOut }.

(** The thunks the component dispatches. *)
Inductive Action :=
| fetchFilesInDataset (datasetId folderId : option string) (skip limit : option Z)
| fetchFoldersInDataset (datasetId parentFolder : option string) (skip limit : option Z)
| fetchDatasetAbout (datasetId : option string)
| fetchFolderPath (folderId : option string)
| fetchMetadataDefinitions (name : option string) (skip limit : Z).

(** *** State setters *)

Definition setSelectedTabIndex (v : Z) (s : State) : State :=
  mkState v (enableAddMetadata s) (metadataRequestForms s) (allowSubmit s)
    (errorOpen s) (showForbiddenPage s) (showNotFoundPage s) (paths s)
    (currPageNum s) (limit s) (skip s) (prevDisabled s) (nextDisabled s).

Definition setMetadataRequestForms
    (f : gmap string Metadata -> gmap string Metadata) (s : State) : State :=
  mkState (selectedTabIndex s) (enableAddMetadata s) (f (metadataRequestForms s))
    (allowSubmit s) (errorOpen s) (showForbiddenPage s) (showNotFoundPage s)
    (paths s) (currPageNum s) (limit s) (skip s) (prevDisabled s) (nextDisabled s).

Definition setPaths (v : list Breadcrumb) (s : State) : State :=
  mkState (selectedTabIndex s) (enableAddMetadata s) (metadataRequestForms s)
    (allowSubmit s) (errorOpen s) (showForbiddenPage s) (showNotFoundPage s)
    v (currPageNum s) (limit s) (skip s) (prevDisabled s) (nextDisabled s).

Definition setCurrPageNum (v : Z) (s : State) : State :=
  mkState (selectedTabIndex s) (enableAddMetadata s) (metadataRequestForms s)
    (allowSubmit s) (errorOpen s) (showForbiddenPage s) (showNotFoundPage s)
    (paths s) v (limit s) (skip s) (prevDisabled s) (nextDisabled s).

Definition setSkip (v : option Z) (s : State) : State :=
  mkState (selectedTabIndex s) (enableAddMetadata s) (metadataRequestForms s)
    (allowSubmit s) (errorOpen s) (showForbiddenPage s) (showNotFoundPage s)
    (paths s) (currPageNum s) (limit s) v (prevDisabled s) (nextDisabled s).

Definition setPrevDisabled (v : bool) (s : State) : State :=
  mkState (selectedTabIndex s) (enableAddMetadata s) (metadataRequestForms s)
    (allowSubmit s) (errorOpen s) (showForbiddenPage s) (showNotFoundPage s)
    (paths s) (currPageNum s) (limit s) (skip s) v (nextDisabled s).

Definition setNextDisabled (v : bool) (s : State) : State :=
  mkState (selectedTabIndex s) (enableAddMetadata s) (metadataRequestForms s)
    (allowSubmit s) (errorOpen s) (showForbiddenPage s) (showNotFoundPage s)
    (paths s) (currPageNum s) (limit s) (skip s) (prevDisabled s) v.

(** The initial values given to [useState]. *)
Definition initialState : State :=
  {| selectedTabIndex := 0;
     enableAddMetadata := false;
     metadataRequestForms := ∅;
     allowSubmit := false;
     errorOpen := false;
     showForbiddenPage := false;
     showNotFoundPage := false;
     paths := [];
     currPageNum := 0;
     limit := 10;
     skip := Some 0;
     prevDisabled := true;
     nextDisabled := false |}.

(** *** Handlers *)

(** [Array.prototype.length] as a number. *)
Definition len {A : Type} (l : list A) : Z := Z.of_nat (length l).

(** [previous]: flip one page back unless already on page 0. *)
Definition previous (s : State) : State :=
  if currPageNum s - 1 >=? 0 then
    setCurrPageNum (currPageNum s - 1)
      (setSkip (Some ((currPageNum s - 1) * limit s)) s)
  else s.

(** The guard of [next]: one of the fetched batches is full. *)
Definition nextGuard (sel : Selected) (s : State) : bool :=
  (len (filesInDataset sel) =? limit s) || (len (foldersInDataset sel) =? limit s).

(** [next]: flip one page forward while a batch is full. *)
Definition next (sel : Selected) (s : State) : State :=
  if nextGuard sel s then
    setCurrPageNum (currPageNum s + 1)
      (setSkip (Some ((currPageNum s + 1) * limit s)) s)
  else s.

Definition handleTabChange (newTabIndex : Z) (s : State) : State :=
  setSelectedTabIndex newTabIndex s.

(** The object spread [{...a, ...b}]: the fields of both, [b]'s winning. *)
Definition spread {V : Type} (a b : gmap string V) : gmap string V := b ∪ a.

(** The updater that [setMetadata] passes to [setMetadataRequestForms].
    [metadata.definition in prevState] is an own-property test on the plain
    object [prevState]; for an inherited name such as [toString] the looked-up
    value has no [content] and the spread copies the submitted content, which
    is the [None] branch up to object identity.  The source assigns the
    merged content to the submitted object and stores that object;
    [metadata'] is the object after the assignment. *)
Definition mergeMetadata (metadata : Metadata)
    (prevState : gmap string Metadata) : gmap string Metadata :=
  match prevState !! definition metadata with
  | Some prev =>
      let prevContent := content prev in
      let metadata' :=
        mkMetadata (definition metadata)
          (spread prevContent (content metadata)) (id metadata) in
      <[definition metadata' := metadata']> prevState
  | None => <[definition metadata := metadata]> prevState
  end.

Definition setMetadata (metadata : Metadata) (s : State) : State :=
  setMetadataRequestForms (mergeMetadata metadata) s.

(** *** Effects

    An effect body returns the thunks it dispatched and the state after its
    setters. *)

Definition Effect : Type := list Action * State.

(** [useEffect(..., [searchParams])]. *)
Definition searchParamsEffect (r : Route) (s : State) : Effect :=
  ([ fetchFilesInDataset (datasetId r) (folderId r) (skip s) (Some (limit s));
     fetchFoldersInDataset (datasetId r) (folderId r) (skip s) (Some (limit s));
     fetchDatasetAbout (datasetId r);
     fetchFolderPath (folderId r) ], s).

(** [useEffect(..., [])]. *)
Definition metadataDefinitionsEffect (s : State) : Effect :=
  ([ fetchMetadataDefinitions None 0 100 ], s).

(** [useEffect(..., [filesInDataset])]: disable flipping on the last page. *)
Definition nextDisabledEffect (sel : Selected) (s : State) : Effect :=
  if (len (filesInDataset sel) <? limit s) && (len (foldersInDataset sel) <? limit s)
  then ([], setNextDisabled true s)
  else ([], setNextDisabled false s).

(** [useEffect(..., [skip])]: refetch both batches at the new offset. *)
Definition skipEffect (r : Route) (s : State) : Effect :=
  match skip s with
  | Some k =>
      ([ fetchFilesInDataset (datasetId r) (folderId r) (skip s) (Some (limit s));
         fetchFoldersInDataset (datasetId r) (folderId r) (skip s) (Some (limit s)) ],
       if k =? 0 then setPrevDisabled true s else setPrevDisabled false s)
  | None => ([], s)
  end.

(** A template literal prints [undefined] for a missing [datasetId]. *)
Definition showId (o : option string) : string :=
  match o with Some x => x | None => "undefined" end.

(** [useEffect(..., [about, folderPath])]: the breadcrumb trail. *)
Definition breadcrumbEffect (r : Route) (sel : Selected) (s : State) : Effect :=
  let root := mkBreadcrumb (about_name (about sel)) ("/datasets/" ++ showId (datasetId r)) in
  let tmpPaths :=
    match folderPath sel with
    | Some fp =>
        root :: map (fun folderBread =>
                       mkBreadcrumb (folder_name folderBread)
                         ("/datasets/" ++ showId (datasetId r) ++ "?folder="
                            ++ folder_id folderBread)) fp
    | None => [root]
    end in
  ([], setPaths tmpPaths s).

(** *** Rendering

    The part of the returned JSX that depends on role and view state: the
    children of [<Tabs>], the [<TabPanel>]s after it and the two paging
    buttons.  Icons, styles and layout boxes carry no state. *)

(** [datasetRole.role !== undefined && datasetRole.role !== "viewer"]. *)
Definition roleGate (role : option string) : bool :=
  bool_decide (role ≠ None) && bool_decide (role ≠ Some "viewer").

Inductive Child :=
| MainBreadcrumbs (paths : list Breadcrumb)
| FilesTable (datasetId folderId : option string)
| Visualization (datasetId : option string)
| EditMetadata (resourceId : option string)
| DisplayMetadata (resourceId : option string)
| DisplayListenerMetadata (resourceId : option string)
| Listeners (datasetId : option string)
| ExtractionHistoryTab (datasetId : option string)
| SharingTab (datasetId : option string)
| Button (label : string) (disabled : bool).

Inductive Element :=
| Tab (label : string) (index : Z) (disabled : bool)
| TabPanel (value index : Z) (children : list Child)
| Fragment.                                   (* <></> *)

(** The children of [<Tabs>]. *)
Definition tabs (role : option string) : list Element :=
  [ Tab "Files" 0 false;
    Tab "Visualizations" 1 false;
    Tab "User Metadata" 2 false;
    Tab "Extracted Metadata" 3 false;
    if roleGate role then Tab "Extract" 4 false else Fragment;
    Tab "Extraction History" 5 false;
    if roleGate role then Tab "Sharing" 6 false else Fragment ].

(** The [<TabPanel>]s. *)
Definition tabPanels (r : Route) (role : option string) (s : State) : list Element :=
  [ TabPanel (selectedTabIndex s) 0
      ((if bool_decide (folderId r ≠ None) then [MainBreadcrumbs (paths s)] else [])
         ++ [FilesTable (datasetId r) (folderId r)]);
    TabPanel (selectedTabIndex s) 1 [Visualization (datasetId r)];
    TabPanel (selectedTabIndex s) 2
      (if enableAddMetadata s && roleGate role
       then [EditMetadata (datasetId r); Button "Update" false; Button "Cancel" false]
       else DisplayMetadata (datasetId r)
              :: (if enableAddMetadata s && roleGate role
                  then [Button "Add Metadata" false] else []));
    TabPanel (selectedTabIndex s) 3 [DisplayListenerMetadata (datasetId r)];
    if roleGate role
    then TabPanel (selectedTabIndex s) 4 [Listeners (datasetId r)] else Fragment;
    TabPanel (selectedTabIndex s) 5 [ExtractionHistoryTab (datasetId r)];
    if roleGate role
    then TabPanel (selectedTabIndex s) 6 [SharingTab (datasetId r)] else Fragment ].

(** The labels of the tabs in a list of elements, in order. *)
Definition tabLabels (es : list Element) : list string :=
  flat_map (fun e => match e with Tab label _ _ => [label] | _ => [] end) es.

(** The [index] props of the tab panels in a list of elements, in order. *)
Definition panelIndices (es : list Element) : list Z :=
  flat_map (fun e => match e with TabPanel _ index _ => [index] | _ => [] end) es.

Inductive Page :=
| Forbidden
| PageNotFound
| Layout (tabs panels : list Element) (previousButton nextButton : Child).

Definition render (r : Route) (sel : Selected) (s : State) : Page :=
  if showForbiddenPage s then Forbidden
  else if showNotFoundPage s then PageNotFound
  else Layout (tabs (role sel)) (tabPanels r (role sel) s)
         (Button "Prev" (prevDisabled s)) (Button "Next" (nextDisabled s)).

(** *** The component as a transition system *)

Record World := mkWorld {
  route : Route;
  selected : Selected;
  state : State;
  dispatched : list Action }.

(** Run an effect body in a world: log its dispatches, keep its state. *)
Definition runEffect (e : State -> Effect) (w : World) : World :=
  let '(acts, s') := e (state w) in
  mkWorld (route w) (selected w) s' (dispatched w ++ acts).

(** First render: every effect runs once, in declaration order. *)
Definition mount (r : Route) (sel : Selected) : World :=
  let w0 := mkWorld r sel initialState [] in
  let w1 := runEffect (searchParamsEffect r) w0 in
  let w2 := runEffect metadataDefinitionsEffect w1 in
  let w3 := runEffect (nextDisabledEffect sel) w2 in
  let w4 := runEffect (skipEffect r) w3 in
  runEffect (breadcrumbEffect r sel) w4.

(** A handler changed the state to [s']: the next render runs the effects
    whose dependency changed.  Handlers write no dependency but [skip]. *)
Definition afterHandler (w : World) (s' : State) : World :=
  let w' := mkWorld (route w) (selected w) s' (dispatched w) in
  if bool_decide (skip s' = skip (state w)) then w'
  else runEffect (skipEffect (route w)) w'.

Inductive Event :=
| ClickPrevious
| ClickNext
| ChangeTab (newTabIndex : Z)
| SubmitMetadata (metadata : Metadata)
| Navigate (folder : option string)
| FilesFetched (files : list FileOut)
| FoldersFetched (folders : list FolderOut)
| AboutFetched (a : About)
| FolderPathFetched (fp : option (list FolderBread))
| RoleFetched (role : option string).

Definition withSelected (sel : Selected) (w : World) : World :=
  mkWorld (route w) sel (state w) (dispatched w).

Definition step (w : World) (e : Event) : World :=
  let sel := selected w in
  match e with
  | ClickPrevious => afterHandler w (previous (state w))
  | ClickNext => afterHandler w (next sel (state w))
  | ChangeTab n => afterHandler w (handleTabChange n (state w))
  | SubmitMetadata m => afterHandler w (setMetadata m (state w))
  | Navigate folder =>
      let r := mkRoute (datasetId (route w)) folder in
      runEffect (searchParamsEffect r)
        (mkWorld r sel (state w) (dispatched w))
  | FilesFetched files =>
      let sel' := mkSelected (about sel) (role sel) (folderPath sel)
                    files (foldersInDataset sel) in
      runEffect (nextDisabledEffect sel') (withSelected sel' w)
  | FoldersFetched folders =>
      let sel' := mkSelected (about sel) (role sel) (folderPath sel)
                    (filesInDataset sel) folders in
      withSelected sel' w
  | AboutFetched a =>
      let sel' := mkSelected a (role sel) (folderPath sel)
                    (filesInDataset sel) (foldersInDataset sel) in
      runEffect (breadcrumbEffect (route w) sel') (withSelected sel' w)
  | FolderPathFetched fp =>
      let sel' := mkSelected (about sel) (role sel) fp
                    (filesInDataset sel) (foldersInDataset sel) in
      runEffect (breadcrumbEffect (route w) sel') (withSelected sel' w)
  | RoleFetched ro =>
      let sel' := mkSelected (about sel) ro (folderPath sel)
                    (filesInDataset sel) (foldersInDataset sel) in
      withSelected sel' w
  end.

(** The world after a sequence of events. *)
Definition run (w : World) (es : list Event) : World := fold_left step es w.

(** *** Predicates on the view state *)

(** A pagination state: the offset is the one derived from the page. *)
Definition PaginationState (s : State) : Prop :=
  skip s = Some (currPageNum s * limit s).

(** What every render of the component satisfies. *)
Definition PagingInv (s : State) : Prop :=
  limit s = 10 /\ 0 <= currPageNum s /\ PaginationState s.

(** [s'] has the paging cells of [s]. *)
Definition samePaging (s s' : State) : Prop :=
  currPageNum s' = currPageNum s /\ limit s' = limit s /\ skip s' = skip s.

(** The two flags that replace the view by an error page. *)
Definition errorFlags (s : State) : bool * bool :=
  (showForbiddenPage s, showNotFoundPage s).

(** *** The metadata editor's buttons *)

Definition setEnableAddMetadata (v : bool) (s : State) : State :=
  mkState (selectedTabIndex s) v (metadataRequestForms s)
    (allowSubmit s) (errorOpen s) (showForbiddenPage s) (showNotFoundPage s)
    (paths s) (currPageNum s) (limit s) (skip s) (prevDisabled s) (nextDisabled s).

(** The metadata thunks of the component. *)
Inductive MetadataAction :=
| patchDatasetMetadata (datasetId : option string) (form : Metadata)
| postDatasetMetadata (datasetId : option string) (form : Metadata)
| deleteDatasetMetadata (datasetId : option string) (form : Metadata)
| fetchDatasetMetadata (datasetId : option string).

(** ["id" in form && form.id !== undefined && form.id !== null
     && form.id !== ""]. *)
Definition hasId (form : Metadata) : bool :=
  match id form with
  | Some i => negb (String.eqb i "")
  | None => false
  end.

(** The body of the [map] callback: update a stored form, post a new one. *)
Definition submitForm (d : option string) (form : Metadata) : MetadataAction :=
  if hasId form then patchDatasetMetadata d form else postDatasetMetadata d form.

(** [handleMetadataUpdateFinish] (the Update button).  The source walks
    [Object.keys(metadataRequestForms)]; a map has no key order, so the
    requests of the forms come here in the order of [map_to_list]. *)
Definition handleMetadataUpdateFinish (r : Route) (s : State)
    : list MetadataAction * State :=
  ((map (fun kv => submitForm (datasetId r) (snd kv))
        (map_to_list (metadataRequestForms s))
      ++ [fetchDatasetMetadata (datasetId r)])%list,
   setEnableAddMetadata false (setMetadataRequestForms (fun _ => ∅) s)).

(** The Cancel button of the editor. *)
Definition cancelAddMetadata (s : State) : State := setEnableAddMetadata false s.

(** *** Predicates on events and requests *)

(** Events that are neither a paging click nor a navigation. *)
Definition quiet (e : Event) : bool :=
  match e with
  | ClickPrevious | ClickNext | Navigate _ => false
  | _ => true
  end.

(** A list request of dataset [d]: ten entries from an offset that is a
    multiple of ten. *)
Definition pagedRequest (d : option string) (a : Action) : Prop :=
  match a with
  | fetchFilesInDataset d' _ sk li
  | fetchFoldersInDataset d' _ sk li =>
      d' = d /\ li = Some 10 /\ exists k, 0 <= k /\ sk = Some (k * 10)
  | _ => True
  end.

(** What every world after the first render satisfies: the paging
    invariant, the Previous button in step with the offset, and a log of
    well-formed list requests. *)
Definition WorldInv (w : World) : Prop :=
  PagingInv (state w)
  /\ prevDisabled (state w) = bool_decide (skip (state w) = Some 0)
  /\ Forall (pagedRequest (datasetId (route w))) (dispatched w).

(** *** Clicks on the rendered buttons

    [step] runs [previous] and [next] whenever their event comes, which
    covers every call of the handlers.  The two paging buttons are rendered
    with [disabled={prevDisabled}] and [disabled={nextDisabled}], and a
    disabled button fires no click: [press] is what a user's click does. *)
Definition press (w : World) (e : Event) : World :=
  match e with
  | ClickPrevious => if prevDisabled (state w) then w else step w e
  | ClickNext => if nextDisabled (state w) then w else step w e
  | _ => step w e
  end.

(** The world after a sequence of events with disabled buttons inert. *)
Definition session (w : World) (es : list Event) : World := fold_left press es w.

(** The children of [<Tabs>] and the tab panels of what is rendered; the
    error pages have neither. *)
Definition renderedTabs (p : Page) : list Element :=
  match p with
  | Layout ts _ _ _ => ts
  | Forbidden | PageNotFound => []
  end.

Definition renderedPanels (p : Page) : list Element :=
  match p with
  | Layout _ ps _ _ => ps
  | Forbidden | PageNotFound => []
  end.

End Component.

Arguments mkMetadata {JsValue} _ _ _.
Arguments definition {JsValue} _.
Arguments content {JsValue} _.
Arguments id {JsValue} _.
Arguments mkState {JsValue} _ _ _ _ _ _ _ _ _ _ _ _ _.
Arguments selectedTabIndex {JsValue} _.
Arguments enableAddMetadata {JsValue} _.
Arguments metadataRequestForms {JsValue} _.
Arguments allowSubmit {JsValue} _.
Arguments errorOpen {JsValue} _.
Arguments showForbiddenPage {JsValue} _.
Arguments showNotFoundPage {JsValue} _.
Arguments paths {JsValue} _.
Arguments currPageNum {JsValue} _.
Arguments limit {JsValue} _.
Arguments skip {JsValue} _.
Arguments prevDisabled {JsValue} _.
Arguments nextDisabled {JsValue} _.
Arguments mkSelected {FileOut FolderOut} _ _ _ _ _.
Arguments about {FileOut FolderOut} _.
Arguments role {FileOut FolderOut} _.
Arguments folderPath {FileOut FolderOut} _.
Arguments filesInDataset {FileOut FolderOut} _.
Arguments foldersInDataset {FileOut FolderOut} _.
Arguments setSelectedTabIndex {JsValue} _ _.
Arguments setMetadataRequestForms {JsValue} _ _.
Arguments setPaths {JsValue} _ _.
Arguments setCurrPageNum {JsValue} _ _.
Arguments setSkip {JsValue} _ _.
Arguments setPrevDisabled {JsValue} _ _.
Arguments setNextDisabled {JsValue} _ _.
Arguments initialState {JsValue}.
Arguments previous {JsValue} _.
Arguments nextGuard {FileOut FolderOut JsValue} _ _.
Arguments next {FileOut FolderOut JsValue} _ _.
Arguments handleTabChange {JsValue} _ _.
Arguments mergeMetadata {JsValue} _ _.
Arguments setMetadata {JsValue} _ _.
Arguments searchParamsEffect {JsValue} _ _.
Arguments metadataDefinitionsEffect {JsValue} _.
Arguments nextDisabledEffect {FileOut FolderOut JsValue} _ _.
Arguments skipEffect {JsValue} _ _.
Arguments breadcrumbEffect {FileOut FolderOut JsValue} _ _ _.
Arguments tabPanels {JsValue} _ _ _.
Arguments render {FileOut FolderOut JsValue} _ _ _.
Arguments mkWorld {FileOut FolderOut JsValue} _ _ _ _.
Arguments route {FileOut FolderOut JsValue} _.
Arguments selected {FileOut FolderOut JsValue} _.
Arguments state {FileOut FolderOut JsValue} _.
Arguments dispatched {FileOut FolderOut JsValue} _.
Arguments runEffect {FileOut FolderOut JsValue} _ _.
Arguments mount {FileOut FolderOut JsValue} _ _.
Arguments afterHandler {FileOut FolderOut JsValue} _ _.
Arguments ClickPrevious {FileOut FolderOut JsValue}.
Arguments ClickNext {FileOut FolderOut JsValue}.
Arguments ChangeTab {FileOut FolderOut JsValue} _.
Arguments SubmitMetadata {FileOut FolderOut JsValue} _.
Arguments Navigate {FileOut FolderOut JsValue} _.
Arguments FilesFetched {FileOut FolderOut JsValue} _.
Arguments FoldersFetched {FileOut FolderOut JsValue} _.
Arguments AboutFetched {FileOut FolderOut JsValue} _.
Arguments FolderPathFetched {FileOut FolderOut JsValue} _.
Arguments RoleFetched {FileOut FolderOut JsValue} _.
Arguments withSelected {FileOut FolderOut JsValue} _ _.
Arguments step {FileOut FolderOut JsValue} _ _.
Arguments run {FileOut FolderOut JsValue} _ _.
Arguments PaginationState {JsValue} _.
Arguments PagingInv {JsValue} _.
Arguments samePaging {JsValue} _ _.
Arguments errorFlags {JsValue} _.
Arguments setEnableAddMetadata {JsValue} _ _.
Arguments patchDatasetMetadata {JsValue} _ _.
Arguments postDatasetMetadata {JsValue} _ _.
Arguments deleteDatasetMetadata {JsValue} _ _.
Arguments fetchDatasetMetadata {JsValue} _.
Arguments hasId {JsValue} _.
Arguments submitForm {JsValue} _ _.
Arguments handleMetadataUpdateFinish {JsValue} _ _.
Arguments cancelAddMetadata {JsValue} _.
Arguments quiet {FileOut FolderOut JsValue} _.
Arguments WorldInv {FileOut FolderOut JsValue} _.
Arguments press {FileOut FolderOut JsValue} _ _.
Arguments session {FileOut FolderOut JsValue} _ _.

End Dataset.

(* ===================================================================== *)
(** ** The share / change-role dialog *)
(* ===================================================================== *)

Module ChangeDatasetRoleModal.

(** [ChangeDatasetRoleProps] without the [handleClose] callback. *)
Record Props := mkProps {
  open : bool;
  datasetName : string;
  currentRole : string;
  currentUser : string }.

(** The [useState] cells. *)
Record State := mkState {
  email : string;
  role : string;
  showSuccessAlert : bool }.

Definition initialState (props : Props) : State :=
  {| email := currentUser props;
     role := currentRole props;
     showSuccessAlert := false |}.

Definition setEmail (v : string) (s : State) : State :=
  mkState v (role s) (showSuccessAlert s).
Definition setRole (v : string) (s : State) : State :=
  mkState (email s) v (showSuccessAlert s).
Definition setShowSuccessAlert (v : bool) (s : State) : State :=
  mkState (email s) (role s) v.

(** The one thunk the dialog dispatches. *)
Inductive Action :=
| setDatasetUserRole (datasetId : option string) (username role : string).

(** [onShare]: dispatch, then reset the form and show the alert. *)
Definition onShare (datasetId : option string) (s : State) : list Action * State :=
  ([ setDatasetUserRole datasetId (email s) (role s) ],
   setShowSuccessAlert true (setRole "viewer" (setEmail "" s))).

(** The [disabled] prop of the Share button:
    [(email.length > 0) ? false : true].  The length counts code units in
    JavaScript and bytes here; both are [0] for the empty string only. *)
Definition shareDisabled (s : State) : bool :=
  if Z.of_nat (String.length (email s)) >? 0 then false else true.

Record World := mkWorld {
  datasetId : option string;         (* useParams().datasetId *)
  state : State;
  dispatched : list Action }.

(** User events, and the end of a dispatched request.  The dialog selects
    nothing from the store and [onShare] does not look at what [dispatch]
    returns, so the outcome of a request reaches no state cell. *)
Inductive Event :=
| ClickShare
| SelectRole (value : string)
| CloseAlert
| RequestSettled (succeeded : bool).

Definition step (w : World) (e : Event) : World :=
  match e with
  | ClickShare =>
      (* a disabled button fires no click *)
      if shareDisabled (state w) then w
      else
        let '(acts, s') := onShare (datasetId w) (state w) in
        mkWorld (datasetId w) s' (dispatched w ++ acts)
  | SelectRole value =>
      mkWorld (datasetId w) (setRole value (state w)) (dispatched w)
  | CloseAlert =>
      mkWorld (datasetId w) (setShowSuccessAlert false (state w)) (dispatched w)
  | RequestSettled _ => w
  end.

(** The dialog as first rendered, nothing dispatched yet. *)
Definition initialWorld (props : Props) (d : option string) : World :=
  mkWorld d (initialState props) [].

(** The dialog after a sequence of events. *)
Definition run (w : World) (es : list Event) : World := fold_left step es w.

End ChangeDatasetRoleModal.

(* ===================================================================== *)
(** ** Properties of the dataset detail view *)
(* ===================================================================== *)

Module DatasetFacts.
Import Dataset.

Section Facts.

Context {FileOut FolderOut JsValue : Type}.

Implicit Types (s : State JsValue) (sel : Selected FileOut FolderOut).
Implicit Types (w : World FileOut FolderOut JsValue).
Implicit Types (r : Route).

(** *** Handlers and effects, one equation each *)

Lemma previous_first_page s :
  currPageNum s - 1 < 0 -> previous s = s.
Proof.
  intros Hlt. unfold previous.
  destruct (currPageNum s - 1 >=? 0) eqn:E; [|reflexivity].
  apply Z.geb_le in E. lia.
Qed.

Lemma previous_back s :
  0 <= currPageNum s - 1 ->
  previous s = setCurrPageNum (currPageNum s - 1)
                 (setSkip (Some ((currPageNum s - 1) * limit s)) s).
Proof.
  intros Hle. unfold previous.
  destruct (currPageNum s - 1 >=? 0) eqn:E; [reflexivity|].
  assert ((currPageNum s - 1 >=? 0) = true) by (apply Z.geb_le; lia). congruence.
Qed.

Lemma next_forward sel s :
  nextGuard sel s = true ->
  next sel s = setCurrPageNum (currPageNum s + 1)
                 (setSkip (Some ((currPageNum s + 1) * limit s)) s).
Proof. intros Hg. unfold next. now rewrite Hg. Qed.

Lemma next_blocked sel s : nextGuard sel s = false -> next sel s = s.
Proof. intros Hg. unfold next. now rewrite Hg. Qed.

Lemma state_runEffect (e : State JsValue -> Effect JsValue) w :
  state (runEffect e w) = snd (e (state w)).
Proof. unfold runEffect. now destruct (e (state w)). Qed.

Lemma dispatched_runEffect (e : State JsValue -> Effect JsValue) w :
  dispatched (runEffect e w) = (dispatched w ++ fst (e (state w)))%list.
Proof. unfold runEffect. now destruct (e (state w)). Qed.

Lemma skipEffect_defined r s k :
  skip s = Some k ->
  skipEffect r s =
    ([ fetchFilesInDataset (datasetId r) (folderId r) (Some k) (Some (limit s));
       fetchFoldersInDataset (datasetId r) (folderId r) (Some k) (Some (limit s)) ],
     setPrevDisabled (k =? 0) s).
Proof.
  intros Hk. unfold skipEffect. rewrite Hk. now destruct (k =? 0).
Qed.

Lemma nextDisabledEffect_spec sel s :
  nextDisabledEffect sel s =
    ([], setNextDisabled
           ((len (filesInDataset sel) <? limit s)
              && (len (foldersInDataset sel) <? limit s)) s).
Proof.
  unfold nextDisabledEffect.
  now destruct ((len (filesInDataset sel) <? limit s)
                  && (len (foldersInDataset sel) <? limit s)).
Qed.

(** *** Preservation of the paging cells *)

Lemma samePaging_refl s : samePaging s s.
Proof. now repeat split. Qed.

Lemma samePaging_inv s s' : samePaging s s' -> PagingInv s -> PagingInv s'.
Proof.
  unfold samePaging, PagingInv, PaginationState.
  intros (Hc & Hl & Hs) (Il & Ic & Is). rewrite Hc, Hl, Hs. auto.
Qed.

Lemma skipEffect_samePaging r s : samePaging s (snd (skipEffect r s)).
Proof.
  unfold skipEffect. destruct (skip s) as [k|] eqn:E; simpl.
  - destruct (k =? 0); now repeat split.
  - apply samePaging_refl.
Qed.

Lemma nextDisabledEffect_samePaging sel s :
  samePaging s (snd (nextDisabledEffect sel s)).
Proof. rewrite nextDisabledEffect_spec. now repeat split. Qed.

Lemma breadcrumbEffect_samePaging r sel s :
  samePaging s (snd (breadcrumbEffect r sel s)).
Proof. now repeat split. Qed.

Lemma previous_inv s : PagingInv s -> PagingInv (previous s).
Proof.
  intros (Il & Ic & Is).
  destruct (Z_lt_le_dec (currPageNum s - 1) 0) as [Hlt|Hle].
  - rewrite previous_first_page by assumption. now repeat split.
  - rewrite previous_back by assumption.
    unfold PagingInv, PaginationState; simpl. repeat split; auto.
Qed.

Lemma next_inv sel s : PagingInv s -> PagingInv (next sel s).
Proof.
  intros (Il & Ic & Is). unfold next.
  destruct (nextGuard sel s); [|now repeat split].
  unfold PagingInv, PaginationState; simpl. repeat split; auto. lia.
Qed.

Lemma afterHandler_state w s' :
  samePaging s' (state (afterHandler w s')).
Proof.
  unfold afterHandler. case_bool_decide.
  - apply samePaging_refl.
  - rewrite state_runEffect. apply skipEffect_samePaging.
Qed.

Lemma step_inv w e : PagingInv (state w) -> PagingInv (state (step w e)).
Proof.
  intros I. destruct e; simpl.
  - eapply samePaging_inv; [apply afterHandler_state|]. now apply previous_inv.
  - eapply samePaging_inv; [apply afterHandler_state|]. now apply next_inv.
  - eapply samePaging_inv; [apply afterHandler_state|]. exact I.
  - eapply samePaging_inv; [apply afterHandler_state|]. exact I.
  - exact I.
  - rewrite state_runEffect. simpl.
    eapply samePaging_inv; [apply nextDisabledEffect_samePaging|]. exact I.
  - exact I.
  - exact I.
  - exact I.
  - exact I.
Qed.

Lemma run_inv es : forall w, PagingInv (state w) -> PagingInv (state (run w es)).
Proof.
  induction es as [|e es IH]; intros w I; simpl.
  - exact I.
  - apply IH. now apply step_inv.
Qed.

Lemma mount_inv r sel :
  PagingInv (state (mount r sel : World FileOut FolderOut JsValue)).
Proof.
  unfold mount. rewrite !state_runEffect. simpl.
  rewrite nextDisabledEffect_spec. simpl.
  unfold PagingInv, PaginationState. simpl. repeat split; lia.
Qed.

Lemma reachable_inv r sel (es : list (Event FileOut FolderOut JsValue)) :
  PagingInv (state (run (mount r sel) es)).
Proof. apply run_inv, mount_inv. Qed.

(** *** Page flipping *)

(** C1.  Pagination state invariant: the initial state has
    [currPageNum = 0] and [skip = 0], and in every state the view reaches
    from it, as well as in what [previous] and [next] make of such a state,
    [skip = currPageNum * limit]. *)
Theorem pagination_skip_is_page_times_limit
    r sel (es : list (Event FileOut FolderOut JsValue)) :
  let w := run (mount r sel) es in
  currPageNum (initialState (JsValue:=JsValue)) = 0
  /\ skip (initialState (JsValue:=JsValue)) = Some 0
  /\ skip (state w) = Some (currPageNum (state w) * limit (state w))
  /\ skip (previous (state w))
       = Some (currPageNum (previous (state w)) * limit (previous (state w)))
  /\ skip (next (selected w) (state w))
       = Some (currPageNum (next (selected w) (state w))
                 * limit (next (selected w) (state w))).
Proof.
  intros w.
  pose proof (reachable_inv r sel es) as I. fold w in I.
  split; [reflexivity|]. split; [reflexivity|].
  split; [apply I|].
  split.
  - apply (previous_inv _ I).
  - apply (next_inv (selected w) _ I).
Qed.

(** C8.  Non-negativity: [previous] changes nothing when
    [currPageNum - 1 < 0], and after every sequence of events from the
    first render [currPageNum >= 0] and [skip] is a number [>= 0]. *)
Theorem paging_never_negative :
  (forall s, currPageNum s - 1 < 0 -> previous s = s)
  /\ (forall r sel (es : list (Event FileOut FolderOut JsValue)),
        let s := state (run (mount r sel) es) in
        0 <= currPageNum s /\ exists k, skip s = Some k /\ 0 <= k).
Proof.
  split.
  - apply previous_first_page.
  - intros r sel es s.
    destruct (reachable_inv r sel es) as (Il & Ic & Is). fold s in Il, Ic, Is.
    split; [exact Ic|].
    exists (currPageNum s * limit s). split; [exact Is|]. rewrite Il. lia.
Qed.

Lemma round_trip_handlers sel s :
  PaginationState s -> 0 <= currPageNum s -> nextGuard sel s = true ->
  currPageNum (previous (next sel s)) = currPageNum s
  /\ skip (previous (next sel s)) = skip s.
Proof.
  unfold PaginationState. intros Hs Hc Hg.
  rewrite (next_forward _ _ Hg).
  rewrite previous_back by (simpl; lia). simpl.
  rewrite Hs. split; [lia | f_equal; lia].
Qed.

Lemma round_trip_clicks w :
  PaginationState (state w) -> 0 <= currPageNum (state w) ->
  nextGuard (selected w) (state w) = true ->
  let w' := step (step w ClickNext) ClickPrevious in
  currPageNum (state w') = currPageNum (state w)
  /\ skip (state w') = skip (state w).
Proof.
  unfold PaginationState. intros Hs Hc Hg. simpl.
  destruct (afterHandler_state w (next (selected w) (state w))) as (Ec & El & Es).
  set (w1 := afterHandler w (next (selected w) (state w))) in *.
  destruct (afterHandler_state w1 (previous (state w1))) as (Ec' & El' & Es').
  rewrite Ec', Es'.
  rewrite (next_forward _ _ Hg) in Ec, El, Es. simpl in Ec, El, Es.
  rewrite previous_back by lia. simpl.
  rewrite Ec, El, Hs. split; [lia | f_equal; lia].
Qed.

(** A click on an enabled button runs the handler. *)
Lemma press_next_enabled w :
  nextDisabled (state w) = false -> press w ClickNext = step w ClickNext.
Proof. intros H. unfold press. now rewrite H. Qed.

Lemma press_previous_enabled w :
  prevDisabled (state w) = false -> press w ClickPrevious = step w ClickPrevious.
Proof. intros H. unfold press. now rewrite H. Qed.

(** After a flip forward the skip effect enables Previous. *)
Lemma next_click_enables_previous w :
  PagingInv (state w) -> nextGuard (selected w) (state w) = true ->
  prevDisabled (state (step w ClickNext)) = false.
Proof.
  intros (Il & Ic & Is) Hg. unfold PaginationState in Is. simpl.
  rewrite (next_forward _ _ Hg). unfold afterHandler.
  case_bool_decide as Hsame.
  - simpl in Hsame. rewrite Is, Il in Hsame. injection Hsame as Hsame. lia.
  - rewrite state_runEffect. cbn [state route].
    rewrite (skipEffect_defined _ _ ((currPageNum (state w) + 1) * limit (state w)))
      by reflexivity.
    simpl. apply Z.eqb_neq. rewrite Il. lia.
Qed.

(** C4.  Round trip: in a pagination state with [currPageNum >= 0] where
    the guard of [next] holds, [next] followed by [previous] gives back
    [currPageNum] and [skip].  Every state the view reaches from its first
    render is such a pagination state with [currPageNum >= 0], so there the
    guard alone is enough; and there, when the Next button is enabled, a
    click on Next followed by a click on Previous, with the renders and
    effects between them, gives back both as well. *)
Theorem next_then_previous_round_trip :
  (forall w,
     PaginationState (state w) ->
     0 <= currPageNum (state w) ->
     nextGuard (selected w) (state w) = true ->
     currPageNum (previous (next (selected w) (state w))) = currPageNum (state w)
     /\ skip (previous (next (selected w) (state w))) = skip (state w))
  /\ (forall r sel (es : list (Event FileOut FolderOut JsValue)),
        let w := run (mount r sel) es in
        nextGuard (selected w) (state w) = true ->
        (currPageNum (previous (next (selected w) (state w))) = currPageNum (state w)
         /\ skip (previous (next (selected w) (state w))) = skip (state w))
        /\ (nextDisabled (state w) = false ->
            let w' := press (press w ClickNext) ClickPrevious in
            currPageNum (state w') = currPageNum (state w)
            /\ skip (state w') = skip (state w))).
Proof.
  split.
  - intros w Hs Hc Hg. now apply round_trip_handlers.
  - intros r sel es w Hg.
    pose proof (reachable_inv r sel es) as I. fold w in I.
    pose proof I as (_ & Hc & Hs).
    split.
    + now apply round_trip_handlers.
    + intros Hen.
      rewrite (press_next_enabled _ Hen).
      rewrite (press_previous_enabled _ (next_click_enables_previous _ I Hg)).
      now apply round_trip_clicks.
Qed.

(** The offset has to be the derived one: from a state whose [skip] is not
    [currPageNum * limit], the two handlers return to the page but to the
    derived offset, not to the stored one. *)
Remark round_trip_resets_skip sel s :
  0 <= currPageNum s -> nextGuard sel s = true ->
  currPageNum (previous (next sel s)) = currPageNum s
  /\ skip (previous (next sel s)) = Some (currPageNum s * limit s).
Proof.
  intros Hc Hg. rewrite (next_forward _ _ Hg).
  rewrite previous_back by (simpl; lia). simpl.
  split; [lia | f_equal; lia].
Qed.

(** *** The effect on [skip] *)

(** C3.  When [skip] is a number, the effect sets the Previous button's
    disabled flag to [true] exactly when [skip] is [0]; the effect runs in
    the render after each handler that changed [skip]. *)
Theorem previous_disabled_iff_skip_zero w s' (k : Z) :
  skip s' = Some k ->
  prevDisabled (snd (skipEffect (route w) s')) = (k =? 0)
  /\ (prevDisabled (snd (skipEffect (route w) s')) = true <-> k = 0)
  /\ (skip s' <> skip (state w) ->
      prevDisabled (state (afterHandler w s')) = (k =? 0)).
Proof.
  intros Hk. rewrite (skipEffect_defined _ _ _ Hk). simpl.
  split; [reflexivity|]. split; [apply Z.eqb_eq|].
  intros Hne. unfold afterHandler. case_bool_decide; [contradiction|].
  rewrite state_runEffect. simpl.
  now rewrite (skipEffect_defined _ _ _ Hk).
Qed.

(** C7.  After a handler changed [skip] to a number, the next render
    dispatches one files fetch and one folders fetch, each with the current
    [datasetId], [folderId], [skip] and [limit], and nothing else; of the
    state cells only [prevDisabled] is written. *)
Theorem skip_change_fetches_once w s' (k : Z) :
  skip s' = Some k ->
  skip s' <> skip (state w) ->
  let w' := afterHandler w s' in
  dispatched w' =
    (dispatched w ++
     [ fetchFilesInDataset (datasetId (route w)) (folderId (route w))
         (Some k) (Some (limit s'));
       fetchFoldersInDataset (datasetId (route w)) (folderId (route w))
         (Some k) (Some (limit s')) ])%list
  /\ state w' = setPrevDisabled (k =? 0) s'
  /\ route w' = route w
  /\ selected w' = selected w.
Proof.
  intros Hk Hne w'. subst w'. unfold afterHandler.
  case_bool_decide; [contradiction|].
  unfold runEffect. simpl. rewrite (skipEffect_defined _ _ _ Hk). simpl.
  repeat split; reflexivity.
Qed.

(** When the files batch changes, the Next button is recomputed from the
    new files batch and the folders batch of that render. *)
Lemma files_refresh_recomputes_next w (files : list FileOut) :
  let w' := step w (FilesFetched files) in
  nextDisabled (state w') =
    (len files <? limit (state w))
      && (len (foldersInDataset (selected w)) <? limit (state w)).
Proof.
  simpl. rewrite state_runEffect. simpl.
  rewrite nextDisabledEffect_spec. reflexivity.
Qed.

(** When the folders batch changes, no effect runs. *)
Lemma folders_refresh_keeps_state w (folders : list FolderOut) :
  state (step w (FoldersFetched folders)) = state w
  /\ dispatched (step w (FoldersFetched folders)) = dispatched w.
Proof. split; reflexivity. Qed.

(** *** Role-gated tabs *)

(** No handler and no effect writes the two error-page flags. *)
Lemma previous_errorFlags s : errorFlags (previous s) = errorFlags s.
Proof. unfold previous. now destruct (currPageNum s - 1 >=? 0). Qed.

Lemma next_errorFlags sel s : errorFlags (next sel s) = errorFlags s.
Proof. unfold next. now destruct (nextGuard sel s). Qed.

Lemma skipEffect_errorFlags r s :
  errorFlags (snd (skipEffect r s)) = errorFlags s.
Proof.
  unfold skipEffect. destruct (skip s) as [k|]; simpl; [|reflexivity].
  now destruct (k =? 0).
Qed.

Lemma afterHandler_errorFlags w s' :
  errorFlags (state (afterHandler w s')) = errorFlags s'.
Proof.
  unfold afterHandler. case_bool_decide; [reflexivity|].
  rewrite state_runEffect. apply skipEffect_errorFlags.
Qed.

Lemma step_errorFlags w e :
  errorFlags (state (step w e)) = errorFlags (state w).
Proof.
  destruct e; simpl; rewrite ?afterHandler_errorFlags, ?state_runEffect.
  - apply previous_errorFlags.
  - apply next_errorFlags.
  - reflexivity.
  - reflexivity.
  - reflexivity.
  - simpl. now rewrite nextDisabledEffect_spec.
  - reflexivity.
  - reflexivity.
  - reflexivity.
  - reflexivity.
Qed.

Lemma reachable_errorFlags r sel (es : list (Event FileOut FolderOut JsValue)) :
  errorFlags (state (run (mount r sel) es)) = (false, false).
Proof.
  assert (H0 : errorFlags (state (mount r sel : World FileOut FolderOut JsValue))
               = (false, false)).
  { unfold mount. rewrite !state_runEffect. simpl.
    now rewrite nextDisabledEffect_spec. }
  revert H0. generalize (mount r sel : World FileOut FolderOut JsValue).
  induction es as [|e es IH]; intros w0 H0; simpl; [exact H0|].
  apply IH. now rewrite step_errorFlags.
Qed.

(** Every render after the first shows the dataset view itself, with the
    tab strip and the panels of [tabs] and [tabPanels]. *)
Lemma reachable_renders_layout r sel (es : list (Event FileOut FolderOut JsValue)) :
  let w := run (mount r sel) es in
  render (route w) (selected w) (state w) =
    Layout (tabs (role (selected w)))
      (tabPanels (route w) (role (selected w)) (state w))
      (Button "Prev" (prevDisabled (state w)))
      (Button "Next" (nextDisabled (state w))).
Proof.
  intros w. pose proof (reachable_errorFlags r sel es) as H. fold w in H.
  unfold errorFlags in H. injection H as Hf Hn.
  unfold render. now rewrite Hf, Hn.
Qed.

Lemma roleGate_spec (ro : option string) :
  roleGate ro = true <-> ro <> None /\ ro <> Some "viewer".
Proof.
  unfold roleGate. rewrite andb_true_iff, !bool_decide_eq_true. reflexivity.
Qed.

Lemma tabLabels_tabs (ro : option string) :
  tabLabels (tabs ro) =
    if roleGate ro
    then ["Files"; "Visualizations"; "User Metadata"; "Extracted Metadata";
          "Extract"; "Extraction History"; "Sharing"]
    else ["Files"; "Visualizations"; "User Metadata"; "Extracted Metadata";
          "Extraction History"].
Proof. unfold tabs. now destruct (roleGate ro). Qed.

Lemma panelIndices_tabPanels r (ro : option string) s :
  panelIndices (tabPanels r ro s) =
    if roleGate ro then [0; 1; 2; 3; 4; 5; 6] else [0; 1; 2; 3; 5].
Proof. unfold tabPanels. now destruct (roleGate ro). Qed.

(** C6.  In the dataset detail view, that is whenever the component
    returns the view and not an error page, the Extract and Sharing tabs
    and the tab panels 4 and 6 that go with them are rendered if and only
    if [datasetRole.role] is defined and is not ["viewer"]; the Files,
    Visualizations, User Metadata, Extracted Metadata and Extraction
    History tabs are rendered for every role.  Every render after the
    first is the view. *)
Theorem role_gated_tabs :
  let gated := fun r (ro : option string) s (page : Page) =>
    let gate := ro <> None /\ ro <> Some "viewer" in
    (In "Extract" (tabLabels (renderedTabs page)) <-> gate)
    /\ (In "Sharing" (tabLabels (renderedTabs page)) <-> gate)
    /\ (In (TabPanel (selectedTabIndex s) 4 [Listeners (datasetId r)])
           (renderedPanels page) <-> gate)
    /\ (In 4 (panelIndices (renderedPanels page)) <-> gate)
    /\ (In (TabPanel (selectedTabIndex s) 6 [SharingTab (datasetId r)])
           (renderedPanels page) <-> gate)
    /\ (In 6 (panelIndices (renderedPanels page)) <-> gate)
    /\ In "Files" (tabLabels (renderedTabs page))
    /\ In "Visualizations" (tabLabels (renderedTabs page))
    /\ In "User Metadata" (tabLabels (renderedTabs page))
    /\ In "Extracted Metadata" (tabLabels (renderedTabs page))
    /\ In "Extraction History" (tabLabels (renderedTabs page)) in
  (forall r sel s,
     showForbiddenPage s = false -> showNotFoundPage s = false ->
     gated r (role sel) s (render r sel s))
  /\ (forall r sel (es : list (Event FileOut FolderOut JsValue)),
        let w := run (mount r sel) es in
        gated (route w) (role (selected w)) (state w)
          (render (route w) (selected w) (state w))).
Proof.
  intros gated.
  assert (Hview : forall r (ro : option string) s,
            gated r ro s
              (Layout (tabs ro) (tabPanels r ro s)
                 (Button "Prev" (prevDisabled s)) (Button "Next" (nextDisabled s)))).
  { intros r ro s. subst gated. cbv beta zeta.
    rewrite <- roleGate_spec. unfold renderedTabs, renderedPanels.
    rewrite tabLabels_tabs, panelIndices_tabPanels. unfold tabPanels.
    destruct (roleGate ro); simpl;
      repeat split; intros; auto 10;
      repeat match goal with
             | H : _ \/ _ |- _ => destruct H
             | H : False |- _ => destruct H
             end; try discriminate; try congruence. }
  split.
  - intros r sel s Hf Hn. unfold render. rewrite Hf, Hn. apply Hview.
  - intros r sel es w.
    pose proof (reachable_renders_layout r sel es) as Hr. simpl in Hr.
    fold w in Hr. rewrite Hr. apply Hview.
Qed.

(** *** Pending metadata forms *)

Lemma lookup_spread {V : Type} (a b : gmap string V) (k : string) :
  spread a b !! k = match b !! k with Some v => Some v | None => a !! k end.
Proof.
  unfold spread. rewrite lookup_union.
  destruct (b !! k), (a !! k); reflexivity.
Qed.

(** C10.  [setMetadata] on a definition key that already has a pending
    form stores the submitted form with its content replaced by the union
    of the previous and the submitted content, submitted fields first;
    forms under other keys stay as they are; a form with a fresh
    definition key is stored as submitted. *)
Theorem setMetadata_merges_content (metadata : Metadata JsValue) s :
  let forms := metadataRequestForms s in
  let forms' := metadataRequestForms (setMetadata metadata s) in
  (forall prev, forms !! definition metadata = Some prev ->
     exists stored,
       forms' !! definition metadata = Some stored
       /\ definition stored = definition metadata
       /\ id stored = id metadata
       /\ dom (content stored) = dom (content prev) ∪ dom (content metadata)
       /\ (forall k v, content metadata !! k = Some v ->
                       content stored !! k = Some v)
       /\ (forall k, content metadata !! k = None ->
                     content stored !! k = content prev !! k))
  /\ (forall key, key <> definition metadata -> forms' !! key = forms !! key)
  /\ (forms !! definition metadata = None ->
      forms' !! definition metadata = Some metadata).
Proof.
  intros forms forms'. subst forms forms'. simpl. unfold mergeMetadata.
  split; [|split].
  - intros prev Hprev. rewrite Hprev. simpl.
    eexists. split; [apply lookup_insert_eq|]. simpl.
    split; [reflexivity|]. split; [reflexivity|].
    split; [|split].
    + unfold spread. rewrite dom_union_L. apply (comm_L (∪)).
    + intros k v Hk. now rewrite lookup_spread, Hk.
    + intros k Hk. now rewrite lookup_spread, Hk.
  - intros key Hne.
    destruct (metadataRequestForms s !! definition metadata); simpl;
      now rewrite lookup_insert_ne by congruence.
  - intros Hnone. rewrite Hnone. apply lookup_insert_eq.
Qed.

(** [setMetadata] writes no other state cell. *)
Lemma setMetadata_frame (metadata : Metadata JsValue) s :
  setMetadata metadata s =
    setMetadataRequestForms (fun _ => metadataRequestForms (setMetadata metadata s)) s.
Proof. reflexivity. Qed.

End Facts.

(** The latitude and longitude of one definition arrive as two forms. *)
Example setMetadata_lat_lon :
  let lat := mkMetadata "LatLon" {[ "lat" := 40%Z ]} None in
  let lon := mkMetadata "LatLon" {[ "lon" := (-88)%Z ]} None in
  metadataRequestForms (setMetadata lon (setMetadata lat initialState))
    !! "LatLon"
  = Some (mkMetadata "LatLon" {[ "lat" := 40%Z; "lon" := (-88)%Z ]} None).
Proof. vm_compute. reflexivity. Qed.

(** C2 (the code departs from the claim).  A folders batch that arrives
    after the files batch does not recompute the Next button.  A dataset
    folder with 13 files and 25 folders, each files batch arriving before
    the folders batch of the same page: on the third page (0 files,
    5 folders) Next is still enabled though both batches are short; back on
    the second page (3 files, 10 folders) Next is disabled though the
    folders batch is full and the guard of [next] holds. *)
Theorem next_button_stale_after_folders_refresh :
  let r := mkRoute (Some "d") None in
  let sel := mkSelected (mkAbout "" "") (Some "owner") None [] [] in
  let w0 : World unit unit unit := mount r sel in
  let w1 := run w0 [FilesFetched (repeat tt 10); FoldersFetched (repeat tt 10);
                    ClickNext;
                    FilesFetched (repeat tt 3); FoldersFetched (repeat tt 10);
                    ClickNext;
                    FilesFetched []; FoldersFetched (repeat tt 5)] in
  let w2 := run w1 [ClickPrevious;
                    FilesFetched (repeat tt 3); FoldersFetched (repeat tt 10)] in
  (currPageNum (state w1) = 2
   /\ limit (state w1) = 10
   /\ len (filesInDataset (selected w1)) = 0
   /\ len (foldersInDataset (selected w1)) = 5
   /\ nextDisabled (state w1) = false)
  /\ (currPageNum (state w2) = 1
      /\ limit (state w2) = 10
      /\ len (filesInDataset (selected w2)) = 3
      /\ len (foldersInDataset (selected w2)) = 10
      /\ nextGuard (selected w2) (state w2) = true
      /\ nextDisabled (state w2) = true).
Proof. vm_compute. repeat split; reflexivity. Qed.

(** Witness of C8: Previous on the first page. *)
Lemma paging_never_negative_witness :
  let s : State unit := initialState in
  currPageNum s - 1 < 0 /\ previous s = s.
Proof.
  intros s.
  assert (H : currPageNum s - 1 < 0) by (simpl; lia).
  split; [exact H|].
  exact (proj1 (@paging_never_negative unit unit unit) s H).
Defined.

(** Witness of C10: a longitude submitted after a latitude, with a form of
    another definition pending. *)
Lemma setMetadata_merges_content_witness :
  let lat := mkMetadata "LatLon" {[ "lat" := 40 ]} None in
  let lon := mkMetadata "LatLon" {[ "lon" := -88 ]} (Some "m1") in
  let doi := mkMetadata "DOI" {[ "doi" := 7 ]} None in
  let s := setMetadata doi (setMetadata lat initialState) in
  let forms := metadataRequestForms s in
  let forms' := metadataRequestForms (setMetadata lon s) in
  forms !! "LatLon" = Some lat
  /\ (exists stored,
        forms' !! "LatLon" = Some stored
        /\ definition stored = "LatLon"
        /\ id stored = Some "m1"
        /\ dom (content stored) = dom (content lat) ∪ dom (content lon)
        /\ (forall k v, content lon !! k = Some v -> content stored !! k = Some v)
        /\ (forall k, content lon !! k = None ->
                      content stored !! k = content lat !! k))
  /\ "DOI" <> "LatLon"
  /\ forms' !! "DOI" = forms !! "DOI".
Proof.
  intros lat lon doi s forms forms'.
  assert (H1 : forms !! "LatLon" = Some lat) by (vm_compute; reflexivity).
  assert (H2 : "DOI" <> "LatLon") by discriminate.
  split; [exact H1|].
  split; [exact (proj1 (setMetadata_merges_content lon s) lat H1)|].
  split; [exact H2|].
  exact (proj1 (proj2 (setMetadata_merges_content lon s)) "DOI" H2).
Defined.

(** Witness of C6: a viewer and an editor on the first render. *)
Lemma role_gated_tabs_witness :
  let r := mkRoute (Some "d") None in
  let viewer : Selected unit unit :=
    mkSelected (mkAbout "" "") (Some "viewer") None [] [] in
  let editor : Selected unit unit :=
    mkSelected (mkAbout "" "") (Some "editor") None [] [] in
  let s : State unit := initialState in
  showForbiddenPage s = false
  /\ showNotFoundPage s = false
  /\ ~ In "Extract" (tabLabels (renderedTabs (render r viewer s)))
  /\ In "Extraction History" (tabLabels (renderedTabs (render r viewer s)))
  /\ In "Extract" (tabLabels (renderedTabs (render r editor s)))
  /\ In 6 (panelIndices (renderedPanels (render r editor s))).
Proof.
  intros r viewer editor s.
  assert (Hf : showForbiddenPage s = false) by reflexivity.
  assert (Hn : showNotFoundPage s = false) by reflexivity.
  pose proof (proj1 (@role_gated_tabs unit unit unit) r viewer s Hf Hn) as Hv.
  pose proof (proj1 (@role_gated_tabs unit unit unit) r editor s Hf Hn) as He.
  cbv beta zeta in Hv, He.
  destruct Hv as (Hv1 & _ & _ & _ & _ & _ & _ & _ & _ & _ & Hv11).
  destruct He as (He1 & _ & _ & _ & _ & He6 & _).
  split; [exact Hf|]. split; [exact Hn|].
  split; [intros Hin; apply Hv1 in Hin; destruct Hin as [_ Hne]; now apply Hne|].
  split; [exact Hv11|].
  split; [apply He1; split; discriminate|].
  apply He6; split; discriminate.
Defined.

(** Witness of C4: the first page with a full files batch, as a state and
    as the world after that batch arrived. *)
Lemma next_then_previous_round_trip_witness :
  let sel : Selected unit unit :=
    mkSelected (mkAbout "" "") None None (repeat tt 10) [] in
  let w0 : World unit unit unit :=
    mkWorld (mkRoute None None) sel initialState [] in
  let w : World unit unit unit :=
    run (mount (mkRoute None None) (mkSelected (mkAbout "" "") None None [] []))
      [FilesFetched (repeat tt 10)] in
  (PaginationState (state w0)
   /\ 0 <= currPageNum (state w0)
   /\ nextGuard (selected w0) (state w0) = true
   /\ currPageNum (previous (next (selected w0) (state w0))) = currPageNum (state w0)
   /\ skip (previous (next (selected w0) (state w0))) = skip (state w0))
  /\ (nextGuard (selected w) (state w) = true
      /\ nextDisabled (state w) = false
      /\ let w' := press (press w ClickNext) ClickPrevious in
         currPageNum (state w') = currPageNum (state w)
         /\ skip (state w') = skip (state w)).
Proof.
  intros sel w0 w.
  assert (H1 : PaginationState (state w0)) by reflexivity.
  assert (H2 : 0 <= currPageNum (state w0)) by (simpl; lia).
  assert (H3 : nextGuard (selected w0) (state w0) = true) by reflexivity.
  assert (H4 : nextGuard (selected w) (state w) = true) by reflexivity.
  assert (H5 : nextDisabled (state w) = false) by reflexivity.
  split.
  - split; [exact H1|]. split; [exact H2|]. split; [exact H3|].
    exact (proj1 next_then_previous_round_trip w0 H1 H2 H3).
  - split; [exact H4|]. split; [exact H5|].
    exact (proj2 (proj2 next_then_previous_round_trip
                    (mkRoute None None)
                    (mkSelected (mkAbout "" "") None None [] [])
                    [FilesFetched (repeat tt 10)] H4) H5).
Defined.

(** Witness of C3: back on the first page after a click on Previous. *)
Lemma previous_disabled_iff_skip_zero_witness :
  let w : World unit unit unit :=
    mkWorld (mkRoute None None) (mkSelected (mkAbout "" "") None None [] [])
      (setCurrPageNum 1 (setSkip (Some 10) initialState)) [] in
  let s' := previous (state w) in
  skip s' = Some 0
  /\ prevDisabled (snd (skipEffect (route w) s')) = (0 =? 0)
  /\ (prevDisabled (snd (skipEffect (route w) s')) = true <-> 0 = 0)
  /\ (skip s' <> skip (state w) ->
      prevDisabled (state (afterHandler w s')) = (0 =? 0)).
Proof.
  intros w s'. split; [reflexivity|].
  apply (previous_disabled_iff_skip_zero w s' 0). reflexivity.
Defined.

(** Witness of C7: a click on Next on the first page. *)
Lemma skip_change_fetches_once_witness :
  let w : World unit unit unit :=
    mkWorld (mkRoute (Some "d") None)
      (mkSelected (mkAbout "" "") None None (repeat tt 10) [])
      initialState [] in
  let s' := next (selected w) (state w) in
  let w' := afterHandler w s' in
  skip s' = Some 10
  /\ skip s' <> skip (state w)
  /\ dispatched w' =
    (dispatched w ++
     [ fetchFilesInDataset (datasetId (route w)) (folderId (route w))
         (Some 10) (Some (limit s'));
       fetchFoldersInDataset (datasetId (route w)) (folderId (route w))
         (Some 10) (Some (limit s')) ])%list
  /\ state w' = setPrevDisabled (10 =? 0) s'
  /\ route w' = route w
  /\ selected w' = selected w.
Proof.
  intros w s'.
  assert (H1 : skip s' = Some 10) by reflexivity.
  assert (H2 : skip s' <> skip (state w)) by discriminate.
  split; [exact H1|]. split; [exact H2|].
  exact (skip_change_fetches_once w s' 10 H1 H2).
Defined.

End DatasetFacts.

(* ===================================================================== *)
(** ** Properties of the share / change-role dialog *)
(* ===================================================================== *)

Module ModalFacts.
Import ChangeDatasetRoleModal.

Lemma length_zero_empty (e : string) : String.length e = 0%nat <-> e = "".
Proof.
  destruct e as [|c e]; simpl; split; intros H; try reflexivity; discriminate.
Qed.

Lemma shareDisabled_empty (s : State) : email s = "" -> shareDisabled s = true.
Proof. intros H. unfold shareDisabled. now rewrite H. Qed.

Lemma shareDisabled_nonempty (s : State) : email s <> "" -> shareDisabled s = false.
Proof.
  intros H. unfold shareDisabled.
  destruct (email s) as [|c e]; [contradiction|].
  simpl String.length. rewrite Nat2Z.inj_succ.
  destruct (Z.succ (Z.of_nat (String.length e)) >? 0) eqn:E; [reflexivity|].
  assert (0 < Z.succ (Z.of_nat (String.length e))) as Hlt by lia.
  apply Z.gtb_lt in Hlt. congruence.
Qed.

(** C5.  The Share button is disabled exactly when the email field is the
    empty string. *)
Theorem share_disabled_iff_email_empty (s : State) :
  shareDisabled s = true <-> email s = "".
Proof.
  unfold shareDisabled. rewrite <- length_zero_empty.
  destruct (Z.of_nat (String.length (email s)) >? 0) eqn:E.
  - apply Z.gtb_lt in E. split; [discriminate | lia].
  - split; [intros _ | reflexivity].
    assert (~ 0 < Z.of_nat (String.length (email s))) as Hn.
    { intros Hlt. apply Z.gtb_lt in Hlt. congruence. }
    lia.
Qed.

Lemma onShare_spec (d : option string) (s : State) :
  onShare d s =
    ([ setDatasetUserRole d (email s) (role s) ], mkState "" "viewer" true).
Proof. reflexivity. Qed.

(** C9.  A click on Share with a non-empty email dispatches the role
    assignment for that email and role, then empties the email field, puts
    the role selection back to ["viewer"] and shows the success alert; the
    outcome of the request, success or failure, changes nothing of this, so
    the Share button is then disabled and the alert stays up. *)
Theorem share_click_resets_form (w : World) (succeeded : bool) :
  email (state w) <> "" ->
  let w1 := step w ClickShare in
  let w2 := step w1 (RequestSettled succeeded) in
  dispatched w1 =
    (dispatched w ++
     [ setDatasetUserRole (datasetId w) (email (state w)) (role (state w)) ])%list
  /\ w2 = w1
  /\ email (state w2) = ""
  /\ role (state w2) = "viewer"
  /\ showSuccessAlert (state w2) = true
  /\ shareDisabled (state w2) = true.
Proof.
  intros Hne w1 w2. subst w2 w1. simpl.
  rewrite (shareDisabled_nonempty _ Hne). simpl. repeat split; reflexivity.
Qed.

(** Witness of C9: sharing with one user as editor, the request failing. *)
Lemma share_click_resets_form_witness :
  let w := mkWorld (Some "d") (mkState "ann@example.org" "editor" false) [] in
  let w1 := step w ClickShare in
  let w2 := step w1 (RequestSettled false) in
  email (state w) <> ""
  /\ dispatched w1 = [ setDatasetUserRole (Some "d") "ann@example.org" "editor" ]
  /\ w2 = w1
  /\ email (state w2) = ""
  /\ role (state w2) = "viewer"
  /\ showSuccessAlert (state w2) = true
  /\ shareDisabled (state w2) = true.
Proof.
  intros w w1 w2.
  assert (H : email (state w) <> "") by discriminate.
  split; [exact H|].
  exact (share_click_resets_form w false H).
Defined.

End ModalFacts.

(* ===================================================================== *)
(** ** Further behaviour of the dataset detail view *)
(* ===================================================================== *)

Module DatasetBehaviour.
Import Dataset DatasetFacts.

Section Paging.

Context {FileOut FolderOut JsValue : Type}.

Implicit Types (s : State JsValue) (sel : Selected FileOut FolderOut).
Implicit Types (w : World FileOut FolderOut JsValue).
Implicit Types (r : Route) (e : Event FileOut FolderOut JsValue).

(** *** What a handler leaves to the render after it *)

Lemma world_eta w :
  mkWorld (route w) (selected w) (state w) (dispatched w) = w.
Proof. now destruct w. Qed.

Lemma afterHandler_same w s' :
  skip s' = skip (state w) ->
  afterHandler w s' = mkWorld (route w) (selected w) s' (dispatched w).
Proof.
  intros H. unfold afterHandler. case_bool_decide; [reflexivity|contradiction].
Qed.

Lemma afterHandler_changed w s' (k : Z) :
  skip s' = Some k -> skip s' <> skip (state w) ->
  afterHandler w s' =
    mkWorld (route w) (selected w) (setPrevDisabled (k =? 0) s')
      (dispatched w ++
       [ fetchFilesInDataset (datasetId (route w)) (folderId (route w))
           (Some k) (Some (limit s'));
         fetchFoldersInDataset (datasetId (route w)) (folderId (route w))
           (Some k) (Some (limit s')) ])%list.
Proof.
  intros Hk Hne. unfold afterHandler. case_bool_decide; [contradiction|].
  unfold runEffect. simpl. now rewrite (skipEffect_defined _ _ _ Hk).
Qed.

Lemma route_runEffect (f : State JsValue -> Effect JsValue) w :
  route (runEffect f w) = route w.
Proof. unfold runEffect. now destruct (f (state w)). Qed.

Lemma selected_runEffect (f : State JsValue -> Effect JsValue) w :
  selected (runEffect f w) = selected w.
Proof. unfold runEffect. now destruct (f (state w)). Qed.

Lemma afterHandler_context w s' :
  route (afterHandler w s') = route w /\ selected (afterHandler w s') = selected w.
Proof.
  unfold afterHandler. case_bool_decide; [now split|].
  now rewrite route_runEffect, selected_runEffect.
Qed.

Lemma previous_prevDisabled s : prevDisabled (previous s) = prevDisabled s.
Proof. unfold previous. now destruct (currPageNum s - 1 >=? 0). Qed.

Lemma next_prevDisabled sel s : prevDisabled (next sel s) = prevDisabled s.
Proof. unfold next. now destruct (nextGuard sel s). Qed.

Lemma eqb_zero_decide (k : Z) : (k =? 0) = bool_decide (Some k = Some 0).
Proof.
  destruct (Z.eqb_spec k 0) as [->|Hne].
  - now rewrite bool_decide_eq_true_2.
  - rewrite bool_decide_eq_false_2; [reflexivity|]. intros [=]. contradiction.
Qed.

(** *** The invariant of the worlds after the first render *)

Lemma pagedRequest_of_inv (d f : option string) s :
  PagingInv s ->
  pagedRequest d (fetchFilesInDataset d f (skip s) (Some (limit s)))
  /\ pagedRequest d (fetchFoldersInDataset d f (skip s) (Some (limit s))).
Proof.
  intros (Il & Ic & Is). unfold PaginationState in Is. simpl.
  rewrite Is, Il. repeat split; try reflexivity; exists (currPageNum s); auto.
Qed.

Lemma afterHandler_WorldInv w s' :
  WorldInv w -> PagingInv s' -> prevDisabled s' = prevDisabled (state w) ->
  WorldInv (afterHandler w s').
Proof.
  intros (I & Hp & Hlog) I' Hsame.
  destruct (decide (skip s' = skip (state w))) as [Heq|Hne].
  - rewrite (afterHandler_same _ _ Heq). unfold WorldInv. simpl.
    split; [exact I'|]. split; [|exact Hlog]. now rewrite Hsame, Hp, Heq.
  - pose proof I' as (Il & Ic & Is). unfold PaginationState in Is.
    rewrite (afterHandler_changed _ _ _ Is Hne). unfold WorldInv. simpl.
    split; [|split].
    + eapply samePaging_inv; [|exact I']. now repeat split.
    + rewrite Is. apply eqb_zero_decide.
    + apply Forall_app. split; [exact Hlog|].
      destruct (pagedRequest_of_inv (datasetId (route w)) (folderId (route w)) s' I')
        as [Hf Hd].
      rewrite Is in Hf, Hd.
      constructor; [exact Hf|]. constructor; [exact Hd|]. constructor.
Qed.

Lemma step_WorldInv w e : WorldInv w -> WorldInv (step w e).
Proof.
  intros Hw. pose proof Hw as (I & Hp & Hlog). destruct e; simpl.
  - apply afterHandler_WorldInv;
      [exact Hw | now apply previous_inv | apply previous_prevDisabled].
  - apply afterHandler_WorldInv;
      [exact Hw | now apply next_inv | apply next_prevDisabled].
  - apply afterHandler_WorldInv; [exact Hw | exact I | reflexivity].
  - apply afterHandler_WorldInv; [exact Hw | exact I | reflexivity].
  - unfold WorldInv, runEffect. simpl.
    split; [exact I|]. split; [exact Hp|].
    apply Forall_app. split; [exact Hlog|].
    destruct (pagedRequest_of_inv (datasetId (route w)) folder (state w) I)
      as [Hf Hd].
    constructor; [exact Hf|]. constructor; [exact Hd|].
    constructor; [exact Logic.I|]. constructor; [exact Logic.I|]. constructor.
  - unfold WorldInv, runEffect. rewrite nextDisabledEffect_spec. simpl.
    rewrite app_nil_r.
    split; [|split; [exact Hp|exact Hlog]].
    eapply samePaging_inv; [|exact I]. now repeat split.
  - exact Hw.
  - unfold WorldInv, runEffect. simpl. rewrite app_nil_r.
    split; [|split; [exact Hp|exact Hlog]].
    eapply samePaging_inv; [|exact I]. now repeat split.
  - unfold WorldInv, runEffect. simpl. rewrite app_nil_r.
    split; [|split; [exact Hp|exact Hlog]].
    eapply samePaging_inv; [|exact I]. now repeat split.
  - exact Hw.
Qed.

Lemma run_WorldInv (es : list (Event FileOut FolderOut JsValue)) :
  forall w, WorldInv w -> WorldInv (run w es).
Proof.
  induction es as [|e es IH]; intros w Hw; simpl; [exact Hw|].
  apply IH. now apply step_WorldInv.
Qed.

Lemma mount_WorldInv r sel :
  WorldInv (mount r sel : World FileOut FolderOut JsValue).
Proof.
  split; [apply mount_inv|].
  unfold mount, runEffect. simpl. rewrite nextDisabledEffect_spec. simpl.
  split; [reflexivity|].
  assert (Hreq : forall d d' f sk, d' = d -> sk = Some 0 ->
            pagedRequest d (fetchFilesInDataset d' f sk (Some 10))
            /\ pagedRequest d (fetchFoldersInDataset d' f sk (Some 10))).
  { intros d d' f sk -> ->. simpl.
    repeat split; try reflexivity; exists 0; split; (lia || reflexivity). }
  destruct (Hreq (datasetId r) (datasetId r) (folderId r) (Some 0)
              eq_refl eq_refl) as [Hf Hd].
  constructor; [exact Hf|]. constructor; [exact Hd|].
  constructor; [exact Logic.I|]. constructor; [exact Logic.I|]. constructor; [exact Logic.I|].
  constructor; [exact Hf|]. constructor; [exact Hd|]. constructor.
Qed.

Lemma reachable_WorldInv r sel (es : list (Event FileOut FolderOut JsValue)) :
  WorldInv (run (mount r sel) es).
Proof. apply run_WorldInv, mount_WorldInv. Qed.

Lemma step_datasetId w e : datasetId (route (step w e)) = datasetId (route w).
Proof.
  destruct e; simpl; unfold afterHandler, runEffect;
    repeat case_bool_decide;
    repeat match goal with |- context [let '(_, _) := ?x in _] => destruct x end;
    reflexivity.
Qed.

Lemma run_datasetId (es : list (Event FileOut FolderOut JsValue)) :
  forall w, datasetId (route (run w es)) = datasetId (route w).
Proof.
  induction es as [|e es IH]; intros w; simpl; [reflexivity|].
  now rewrite IH, step_datasetId.
Qed.

Lemma reachable_datasetId r sel (es : list (Event FileOut FolderOut JsValue)) :
  datasetId (route (run (mount r sel) es)) = datasetId r.
Proof.
  rewrite run_datasetId. unfold mount. now rewrite !route_runEffect.
Qed.

Lemma WorldInv_prevDisabled w :
  WorldInv w -> prevDisabled (state w) = (currPageNum (state w) =? 0).
Proof.
  intros ((Il & Ic & Is) & Hp & _). unfold PaginationState in Is.
  rewrite Hp, Is, <- eqb_zero_decide, Il.
  destruct (Z.eqb_spec (currPageNum (state w)) 0) as [->|Hne]; [reflexivity|].
  apply Z.eqb_neq. lia.
Qed.

Lemma afterHandler_nextDisabled w s' :
  nextDisabled (state (afterHandler w s')) = nextDisabled s'.
Proof.
  unfold afterHandler. case_bool_decide; [reflexivity|].
  rewrite state_runEffect. simpl. unfold skipEffect.
  destruct (skip s') as [k|]; [|reflexivity]. now destruct (k =? 0).
Qed.

Lemma previous_nextDisabled s : nextDisabled (previous s) = nextDisabled s.
Proof. unfold previous. now destruct (currPageNum s - 1 >=? 0). Qed.

(** Whatever is reached with disabled buttons inert is reached by [run]:
    a click on a disabled button is no event at all. *)
Lemma session_reached_by_run (es : list (Event FileOut FolderOut JsValue)) :
  forall w, exists es', session w es = run w es'.
Proof.
  induction es as [|e es IH]; intros w; simpl.
  - now exists [].
  - assert (H : press w e = w \/ press w e = step w e).
    { destruct e; simpl; auto.
      - destruct (prevDisabled (state w)); auto.
      - destruct (nextDisabled (state w)); auto. }
    destruct H as [-> | ->].
    + apply IH.
    + destruct (IH (step w e)) as [es' Hes']. now exists (e :: es').
Qed.

(** *** The Previous button and the request log *)

(** X1.  After every sequence of events from the first render the Previous
    button is disabled exactly on page 0, in the state and in what is
    rendered. *)
Theorem previous_disabled_iff_first_page
    r sel (es : list (Event FileOut FolderOut JsValue)) :
  let w := run (mount r sel) es in
  prevDisabled (state w) = (currPageNum (state w) =? 0)
  /\ render (route w) (selected w) (state w) =
       Layout (tabs (role (selected w)))
         (tabPanels (route w) (role (selected w)) (state w))
         (Button "Prev" (currPageNum (state w) =? 0))
         (Button "Next" (nextDisabled (state w))).
Proof.
  intros w.
  destruct (reachable_WorldInv r sel es) as ((Il & Ic & Is) & Hp & _).
  fold w in Il, Ic, Is, Hp. unfold PaginationState in Is.
  assert (H : prevDisabled (state w) = (currPageNum (state w) =? 0)).
  { rewrite Hp, Is, <- eqb_zero_decide, Il.
    destruct (Z.eqb_spec (currPageNum (state w)) 0) as [->|Hne]; [reflexivity|].
    apply Z.eqb_neq. lia. }
  split; [exact H|].
  pose proof (reachable_renders_layout r sel es) as Hr. simpl in Hr.
  fold w in Hr. now rewrite Hr, H.
Qed.

(** X2.  Every files or folders request the view ever dispatches is for
    the dataset of the route, asks for 10 entries and starts at an offset
    that is a non-negative multiple of 10; and [limit] stays 10. *)
Theorem list_requests_are_paged
    r sel (es : list (Event FileOut FolderOut JsValue)) :
  let w := run (mount r sel) es in
  limit (state w) = 10
  /\ Forall (pagedRequest (datasetId r)) (dispatched w).
Proof.
  intros w.
  destruct (reachable_WorldInv r sel es) as ((Il & _) & _ & Hlog).
  fold w in Il, Hlog. split; [exact Il|].
  rewrite <- (reachable_datasetId r sel es). exact Hlog.
Qed.

(** *** Clicks *)

(** X3.  A click on Previous on page 0, and a click on Next while neither
    batch has exactly [limit] entries, change nothing and dispatch
    nothing. *)
Theorem blocked_clicks_do_nothing w :
  (currPageNum (state w) - 1 < 0 -> step w ClickPrevious = w)
  /\ (nextGuard (selected w) (state w) = false -> step w ClickNext = w).
Proof.
  split; intros H; simpl.
  - rewrite (previous_first_page _ H).
    rewrite afterHandler_same by reflexivity. apply world_eta.
  - rewrite (next_blocked _ _ H).
    rewrite afterHandler_same by reflexivity. apply world_eta.
Qed.

(** X4.  A click on Next while a batch has exactly [limit] entries, in a
    world reached from the first render on page [c].  When the button is
    enabled the page becomes [c + 1], the offset [(c + 1) * 10], Previous
    is enabled, one files and one folders request for that offset are
    dispatched, and the Next button and the fetched batches stay as they
    are until data arrives.  When the button is disabled the click does
    nothing, guard or not. *)
Theorem next_click_flips_forward
    r sel (es : list (Event FileOut FolderOut JsValue)) :
  let w := run (mount r sel) es in
  nextGuard (selected w) (state w) = true ->
  let c := currPageNum (state w) in
  let w' := press w ClickNext in
  (nextDisabled (state w) = false ->
   currPageNum (state w') = c + 1
   /\ skip (state w') = Some ((c + 1) * 10)
   /\ prevDisabled (state w') = false
   /\ nextDisabled (state w') = nextDisabled (state w)
   /\ selected w' = selected w
   /\ dispatched w' =
        (dispatched w ++
         [ fetchFilesInDataset (datasetId r) (folderId (route w))
             (Some ((c + 1) * 10)) (Some 10);
           fetchFoldersInDataset (datasetId r) (folderId (route w))
             (Some ((c + 1) * 10)) (Some 10) ])%list)
  /\ (nextDisabled (state w) = true -> w' = w).
Proof.
  intros w Hg c w'. subst w'. split.
  - intros Hen. rewrite (press_next_enabled _ Hen). simpl.
    destruct (reachable_WorldInv r sel es) as ((Il & Ic & Is) & _ & _).
    fold w in Il, Ic, Is. unfold PaginationState in Is.
    assert (Hd : datasetId (route w) = datasetId r)
      by apply reachable_datasetId.
    rewrite (next_forward _ _ Hg).
    rewrite (afterHandler_changed _ _ ((c + 1) * 10)).
    + simpl. rewrite Il, Hd. fold c.
      assert (((c + 1) * 10 =? 0) = false) as -> by (apply Z.eqb_neq; subst c; lia).
      repeat split; reflexivity.
    + simpl. now rewrite Il.
    + simpl. rewrite Is, Il. intros [=]. subst c. lia.
  - intros Hdis. unfold press. now rewrite Hdis.
Qed.

(** X5.  A click on Previous on a page [c >= 1], in a world reached from
    the first render: the page becomes [c - 1], the offset [(c - 1) * 10],
    Previous is disabled exactly when the new page is 0, and one files and
    one folders request for that offset are dispatched. *)
Theorem previous_click_flips_back
    r sel (es : list (Event FileOut FolderOut JsValue)) :
  let w := run (mount r sel) es in
  1 <= currPageNum (state w) ->
  let c := currPageNum (state w) in
  let w' := step w ClickPrevious in
  currPageNum (state w') = c - 1
  /\ skip (state w') = Some ((c - 1) * 10)
  /\ prevDisabled (state w') = (c - 1 =? 0)
  /\ nextDisabled (state w') = nextDisabled (state w)
  /\ selected w' = selected w
  /\ dispatched w' =
       (dispatched w ++
        [ fetchFilesInDataset (datasetId r) (folderId (route w))
            (Some ((c - 1) * 10)) (Some 10);
          fetchFoldersInDataset (datasetId r) (folderId (route w))
            (Some ((c - 1) * 10)) (Some 10) ])%list.
Proof.
  intros w Hc c w'. subst w'. simpl.
  destruct (reachable_WorldInv r sel es) as ((Il & Ic & Is) & _ & _).
  fold w in Il, Ic, Is. unfold PaginationState in Is.
  assert (Hd : datasetId (route w) = datasetId r)
    by apply reachable_datasetId.
  rewrite previous_back by lia.
  rewrite (afterHandler_changed _ _ ((c - 1) * 10)).
  - simpl. rewrite Il, Hd. fold c.
    assert (((c - 1) * 10 =? 0) = (c - 1 =? 0)) as ->.
    { destruct (Z.eqb_spec (c - 1) 0) as [->|Hne]; [reflexivity|].
      apply Z.eqb_neq. lia. }
    repeat split; reflexivity.
  - simpl. now rewrite Il.
  - simpl. rewrite Is, Il. intros [=]. subst c. lia.
Qed.

(** X6.  Right after a files batch arrives: Next is enabled exactly when
    one of the two batches has at least [limit] entries; whenever the
    guard of [next] holds Next is enabled; and whenever Next is disabled a
    click on it would change nothing. *)
Theorem next_button_after_files_refresh w (files : list FileOut) :
  let w' := step w (FilesFetched files) in
  (nextDisabled (state w') = false <->
     limit (state w) <= len files
     \/ limit (state w) <= len (foldersInDataset (selected w)))
  /\ (nextGuard (selected w') (state w') = true ->
      nextDisabled (state w') = false)
  /\ (nextDisabled (state w') = true -> step w' ClickNext = w').
Proof.
  intros w'.
  assert (Hn : nextDisabled (state w') =
               (len files <? limit (state w))
                 && (len (foldersInDataset (selected w)) <? limit (state w))).
  { subst w'. simpl. rewrite state_runEffect. simpl.
    now rewrite nextDisabledEffect_spec. }
  assert (Hg : nextGuard (selected w') (state w') =
               (len files =? limit (state w))
                 || (len (foldersInDataset (selected w)) =? limit (state w))).
  { subst w'. simpl. unfold runEffect. rewrite nextDisabledEffect_spec.
    reflexivity. }
  assert (Himp : nextGuard (selected w') (state w') = true ->
                 nextDisabled (state w') = false).
  { rewrite Hg, Hn, orb_true_iff, andb_false_iff, !Z.eqb_eq, !Z.ltb_ge. lia. }
  split; [|split].
  - rewrite Hn, andb_false_iff, !Z.ltb_ge. reflexivity.
  - exact Himp.
  - intros Hdis. simpl.
    destruct (nextGuard (selected w') (state w')) eqn:E.
    + rewrite (Himp eq_refl) in Hdis. discriminate.
    + rewrite (next_blocked _ _ E).
      rewrite afterHandler_same by reflexivity. apply world_eta.
Qed.

(** X7.  Fetched data never causes a request: over events other than
    the two paging clicks and navigation the request log, the route and
    the page, offset, limit and Previous button stay as they are. *)
Theorem quiet_events_dispatch_nothing
    w (es : list (Event FileOut FolderOut JsValue)) :
  forallb quiet es = true ->
  let w' := run w es in
  dispatched w' = dispatched w
  /\ route w' = route w
  /\ currPageNum (state w') = currPageNum (state w)
  /\ skip (state w') = skip (state w)
  /\ limit (state w') = limit (state w)
  /\ prevDisabled (state w') = prevDisabled (state w).
Proof.
  revert w. induction es as [|e es IH]; intros w Hq; simpl in *.
  - repeat split; reflexivity.
  - apply andb_true_iff in Hq as [He Hes].
    specialize (IH (step w e) Hes). simpl in IH.
    destruct IH as (-> & -> & -> & -> & -> & ->).
    destruct e; try discriminate He; simpl;
      rewrite ?afterHandler_same by reflexivity; simpl;
      unfold runEffect; rewrite ?nextDisabledEffect_spec; simpl;
      rewrite ?app_nil_r; repeat split; reflexivity.
Qed.

(** X8.  Navigation to a folder keeps the page: in a world reached from
    the first render on page [c] the state is untouched and the four
    requests are dispatched for the new folder at the current offset
    [c * 10], not at offset 0. *)
Theorem navigation_keeps_page
    r sel (es : list (Event FileOut FolderOut JsValue)) (folder : option string) :
  let w := run (mount r sel) es in
  let c := currPageNum (state w) in
  let w' := step w (Navigate folder) in
  state w' = state w
  /\ selected w' = selected w
  /\ route w' = mkRoute (datasetId r) folder
  /\ dispatched w' =
       (dispatched w ++
        [ fetchFilesInDataset (datasetId r) folder (Some (c * 10)) (Some 10);
          fetchFoldersInDataset (datasetId r) folder (Some (c * 10)) (Some 10);
          fetchDatasetAbout (datasetId r);
          fetchFolderPath folder ])%list.
Proof.
  intros w c w'. subst w'. simpl.
  destruct (reachable_WorldInv r sel es) as ((Il & Ic & Is) & _ & _).
  fold w in Il, Ic, Is. unfold PaginationState in Is.
  assert (Hd : datasetId (route w) = datasetId r)
    by apply reachable_datasetId.
  unfold runEffect. simpl. rewrite Is, Il, Hd. repeat split; reflexivity.
Qed.

(** On a page [c >= 1] with the guard of [next], the handler of Previous
    and then the handler of Next give back the page and the offset. *)
Lemma previous_then_next_steps
    r sel (es : list (Event FileOut FolderOut JsValue)) :
  let w := run (mount r sel) es in
  1 <= currPageNum (state w) ->
  nextGuard (selected w) (state w) = true ->
  let w' := step (step w ClickPrevious) ClickNext in
  currPageNum (state w') = currPageNum (state w)
  /\ skip (state w') = skip (state w).
Proof.
  intros w Hc Hg. simpl.
  destruct (reachable_inv r sel es) as (Il & Ic & Is).
  fold w in Il, Ic, Is. unfold PaginationState in Is.
  destruct (afterHandler_state w (previous (state w))) as (Ec & El & Es).
  set (w1 := afterHandler w (previous (state w))) in *.
  assert (Hsel : selected w1 = selected w) by apply afterHandler_context.
  destruct (afterHandler_state w1 (next (selected w1) (state w1))) as (Ec' & El' & Es').
  rewrite Ec', Es'.
  rewrite previous_back in Ec, El, Es by lia. simpl in Ec, El, Es.
  assert (Hg1 : nextGuard (selected w1) (state w1) = true).
  { unfold nextGuard in *. now rewrite Hsel, El. }
  rewrite (next_forward _ _ Hg1). simpl.
  rewrite Ec, El, Is. split; [lia | f_equal; lia].
Qed.

(** X9.  Round trip the other way, on a page [c >= 1] reached from the
    first render while the guard of [next] holds.  When the Next button is
    enabled, a click on Previous and then one on Next give back the page
    and the offset.  When it is disabled, the click on Next does nothing
    and the two clicks end on page [c - 1]. *)
Theorem previous_then_next_round_trip
    r sel (es : list (Event FileOut FolderOut JsValue)) :
  let w := run (mount r sel) es in
  1 <= currPageNum (state w) ->
  nextGuard (selected w) (state w) = true ->
  let w' := press (press w ClickPrevious) ClickNext in
  (nextDisabled (state w) = false ->
   currPageNum (state w') = currPageNum (state w)
   /\ skip (state w') = skip (state w))
  /\ (nextDisabled (state w) = true ->
      currPageNum (state w') = currPageNum (state w) - 1
      /\ skip (state w') = Some ((currPageNum (state w) - 1) * 10)).
Proof.
  intros w Hc Hg w'. subst w'.
  pose proof (reachable_WorldInv r sel es) as Hw. fold w in Hw.
  pose proof Hw as ((Il & Ic & Is) & _ & _).
  assert (Hprev : prevDisabled (state w) = false).
  { rewrite (WorldInv_prevDisabled _ Hw). apply Z.eqb_neq. lia. }
  rewrite (press_previous_enabled _ Hprev).
  assert (Hnd : nextDisabled (state (step w ClickPrevious)) = nextDisabled (state w)).
  { simpl. now rewrite afterHandler_nextDisabled, previous_nextDisabled. }
  split; intros Hn.
  - rewrite press_next_enabled by now rewrite Hnd.
    now apply previous_then_next_steps.
  - assert (press (step w ClickPrevious) ClickNext = step w ClickPrevious) as ->.
    { unfold press. now rewrite Hnd, Hn. }
    simpl. destruct (afterHandler_state w (previous (state w))) as (-> & _ & ->).
    rewrite previous_back by lia. simpl. now rewrite Il.
Qed.

(** *** The breadcrumb trail *)

Lemma previous_paths s : paths (previous s) = paths s.
Proof. unfold previous. now destruct (currPageNum s - 1 >=? 0). Qed.

Lemma next_paths sel s : paths (next sel s) = paths s.
Proof. unfold next. now destruct (nextGuard sel s). Qed.

Lemma afterHandler_paths w s' : paths (state (afterHandler w s')) = paths s'.
Proof.
  unfold afterHandler. case_bool_decide; [reflexivity|].
  rewrite state_runEffect. simpl. unfold skipEffect.
  destruct (skip s') as [k|]; [|reflexivity]. now destruct (k =? 0).
Qed.

Lemma mount_trail r sel :
  let w : World FileOut FolderOut JsValue := mount r sel in
  paths (state w) = paths (snd (breadcrumbEffect (route w) (selected w) (state w))).
Proof.
  unfold mount, runEffect. simpl. rewrite nextDisabledEffect_spec. reflexivity.
Qed.

Lemma step_trail w e :
  paths (state w) = paths (snd (breadcrumbEffect (route w) (selected w) (state w))) ->
  paths (state (step w e))
    = paths (snd (breadcrumbEffect (route (step w e)) (selected (step w e))
                    (state (step w e)))).
Proof.
  intros H.
  assert (Hh : forall s', paths s' = paths (state w) ->
            paths (state (afterHandler w s'))
            = paths (snd (breadcrumbEffect (route (afterHandler w s'))
                            (selected (afterHandler w s'))
                            (state (afterHandler w s'))))).
  { intros s' Hs'. destruct (afterHandler_context w s') as [-> ->].
    rewrite afterHandler_paths, Hs', H. reflexivity. }
  destruct e; simpl.
  - apply Hh, previous_paths.
  - apply Hh, next_paths.
  - now apply Hh.
  - now apply Hh.
  - unfold runEffect. simpl. rewrite H. reflexivity.
  - unfold runEffect. rewrite nextDisabledEffect_spec. simpl.
    rewrite H. reflexivity.
  - rewrite H. reflexivity.
  - reflexivity.
  - reflexivity.
  - rewrite H. reflexivity.
Qed.

(** X10.  After every sequence of events from the first render the stored
    breadcrumb trail is the one of the fetched dataset and folder path:
    first the dataset, by name, at [/datasets/<id>], then one crumb per
    folder of the path, none when no path is known. *)
Theorem breadcrumb_trail_in_sync
    r sel (es : list (Event FileOut FolderOut JsValue)) :
  let w := run (mount r sel) es in
  let fp := match folderPath (selected w) with Some fp => fp | None => [] end in
  paths (state w) =
    mkBreadcrumb (about_name (about (selected w)))
      ("/datasets/" ++ showId (datasetId r))
    :: map (fun folderBread =>
              mkBreadcrumb (folder_name folderBread)
                ("/datasets/" ++ showId (datasetId r) ++ "?folder="
                   ++ folder_id folderBread)) fp.
Proof.
  intros w fp.
  assert (H : paths (state w)
              = paths (snd (breadcrumbEffect (route w) (selected w) (state w)))).
  { subst w. generalize (mount_trail r sel).
    generalize (mount r sel : World FileOut FolderOut JsValue).
    induction es as [|e es IH]; intros w0 H0; simpl; [exact H0|].
    apply IH. now apply step_trail. }
  rewrite H. unfold breadcrumbEffect. simpl.
  rewrite (reachable_datasetId r sel es : datasetId (route w) = _).
  subst fp. now destruct (folderPath (selected w)).
Qed.

End Paging.

(** Witness of X3: the first render with nothing fetched yet. *)
Lemma blocked_clicks_do_nothing_witness :
  let w : World unit unit unit :=
    mount (mkRoute (Some "d") None)
      (mkSelected (mkAbout "" "") None None [] []) in
  currPageNum (state w) - 1 < 0
  /\ nextGuard (selected w) (state w) = false
  /\ step w ClickPrevious = w
  /\ step w ClickNext = w.
Proof.
  intros w.
  assert (H1 : currPageNum (state w) - 1 < 0) by (vm_compute; reflexivity).
  assert (H2 : nextGuard (selected w) (state w) = false) by reflexivity.
  split; [exact H1|]. split; [exact H2|].
  split.
  - exact (proj1 (blocked_clicks_do_nothing w) H1).
  - exact (proj2 (blocked_clicks_do_nothing w) H2).
Defined.

(** Witness of X4: a full files batch on the first page. *)
Lemma next_click_flips_forward_witness :
  let r := mkRoute (Some "d") None in
  let sel : Selected unit unit := mkSelected (mkAbout "" "") None None [] [] in
  let w : World unit unit unit := run (mount r sel) [FilesFetched (repeat tt 10)] in
  let w' := press w ClickNext in
  nextGuard (selected w) (state w) = true
  /\ nextDisabled (state w) = false
  /\ currPageNum (state w') = 0 + 1
  /\ skip (state w') = Some ((0 + 1) * 10)
  /\ prevDisabled (state w') = false
  /\ nextDisabled (state w') = nextDisabled (state w)
  /\ selected w' = selected w
  /\ dispatched w' =
       (dispatched w ++
        [ fetchFilesInDataset (Some "d") None (Some ((0 + 1) * 10)) (Some 10);
          fetchFoldersInDataset (Some "d") None (Some ((0 + 1) * 10)) (Some 10) ])%list.
Proof.
  intros r sel w w'.
  assert (H : nextGuard (selected w) (state w) = true) by reflexivity.
  assert (He : nextDisabled (state w) = false) by reflexivity.
  split; [exact H|]. split; [exact He|].
  exact (proj1 (next_click_flips_forward r sel [FilesFetched (repeat tt 10)] H) He).
Defined.

(** Witness of X5: back from the second page. *)
Lemma previous_click_flips_back_witness :
  let r := mkRoute (Some "d") None in
  let sel : Selected unit unit := mkSelected (mkAbout "" "") None None [] [] in
  let w : World unit unit unit :=
    run (mount r sel) [FilesFetched (repeat tt 10); ClickNext] in
  let w' := step w ClickPrevious in
  1 <= currPageNum (state w)
  /\ currPageNum (state w') = 1 - 1
  /\ skip (state w') = Some ((1 - 1) * 10)
  /\ prevDisabled (state w') = (1 - 1 =? 0)
  /\ nextDisabled (state w') = nextDisabled (state w)
  /\ selected w' = selected w
  /\ dispatched w' =
       (dispatched w ++
        [ fetchFilesInDataset (Some "d") None (Some ((1 - 1) * 10)) (Some 10);
          fetchFoldersInDataset (Some "d") None (Some ((1 - 1) * 10)) (Some 10) ])%list.
Proof.
  intros r sel w w'.
  assert (H : 1 <= currPageNum (state w)) by (vm_compute; discriminate).
  split; [exact H|].
  exact (previous_click_flips_back r sel [FilesFetched (repeat tt 10); ClickNext] H).
Defined.

(** Witness of X7: both batches arrive, a tab is chosen, a form is
    submitted. *)
Lemma quiet_events_dispatch_nothing_witness :
  let w : World unit unit Z :=
    mount (mkRoute (Some "d") None)
      (mkSelected (mkAbout "" "") None None [] []) in
  let es := [ FilesFetched (repeat tt 10); FoldersFetched (repeat tt 4);
              ChangeTab 2;
              SubmitMetadata (mkMetadata "LatLon" {[ "lat" := 40 ]} None) ] in
  let w' := run w es in
  forallb quiet es = true
  /\ dispatched w' = dispatched w
  /\ route w' = route w
  /\ currPageNum (state w') = currPageNum (state w)
  /\ skip (state w') = skip (state w)
  /\ limit (state w') = limit (state w)
  /\ prevDisabled (state w') = prevDisabled (state w).
Proof.
  intros w es w'.
  assert (H : forallb quiet es = true) by reflexivity.
  split; [exact H|].
  exact (quiet_events_dispatch_nothing w es H).
Defined.

(** Witness of X9: on the second page with full batches. *)
Lemma previous_then_next_round_trip_witness :
  let r := mkRoute (Some "d") None in
  let sel : Selected unit unit := mkSelected (mkAbout "" "") None None [] [] in
  let es : list (Event unit unit unit) :=
    [FilesFetched (repeat tt 10); ClickNext; FilesFetched (repeat tt 10)] in
  let w := run (mount r sel) es in
  let w' := press (press w ClickPrevious) ClickNext in
  1 <= currPageNum (state w)
  /\ nextGuard (selected w) (state w) = true
  /\ nextDisabled (state w) = false
  /\ currPageNum (state w') = currPageNum (state w)
  /\ skip (state w') = skip (state w).
Proof.
  intros r sel es w w'.
  assert (H1 : 1 <= currPageNum (state w)) by (vm_compute; discriminate).
  assert (H2 : nextGuard (selected w) (state w) = true) by reflexivity.
  assert (H3 : nextDisabled (state w) = false) by reflexivity.
  split; [exact H1|]. split; [exact H2|]. split; [exact H3|].
  exact (proj1 (previous_then_next_round_trip r sel es H1 H2) H3).
Defined.

End DatasetBehaviour.

(* ===================================================================== *)
(** ** Pending metadata forms and the User Metadata panel *)
(* ===================================================================== *)

Module MetadataBehaviour.
Import Dataset DatasetFacts DatasetBehaviour.

Section Forms.

Context {FileOut FolderOut JsValue : Type}.

Implicit Types (s : State JsValue) (m : Metadata JsValue).
Implicit Types (forms : gmap string (Metadata JsValue)).
Implicit Types (w : World FileOut FolderOut JsValue) (r : Route).

(** *** The merge as one insertion *)

Lemma mergeMetadata_insert m forms :
  mergeMetadata m forms =
    <[definition m :=
        match forms !! definition m with
        | Some prev =>
            mkMetadata (definition m) (spread (content prev) (content m)) (id m)
        | None => m
        end]> forms.
Proof. unfold mergeMetadata. now destruct (forms !! definition m). Qed.

Lemma spread_again {V : Type} (a b : gmap string V) :
  spread (spread a b) b = spread a b.
Proof.
  apply map_eq. intros k. rewrite !lookup_spread. now destruct (b !! k).
Qed.

Lemma spread_self {V : Type} (a : gmap string V) : spread a a = a.
Proof.
  apply map_eq. intros k. rewrite lookup_spread. now destruct (a !! k).
Qed.

Lemma hasId_spec m :
  hasId m = true <-> exists i, id m = Some i /\ i <> "".
Proof.
  unfold hasId. destruct (id m) as [i|].
  - rewrite negb_true_iff. split.
    + intros H. exists i. split; [reflexivity|]. now apply String.eqb_neq.
    + intros (j & [= <-] & Hne). now apply String.eqb_neq.
  - split; [discriminate|]. intros (i & H & _). discriminate.
Qed.

(** X11.  Submitting the same form twice is the same as submitting it
    once. *)
Theorem setMetadata_idempotent m s :
  setMetadata m (setMetadata m s) = setMetadata m s.
Proof.
  unfold setMetadata, setMetadataRequestForms. simpl. f_equal.
  rewrite (mergeMetadata_insert m (mergeMetadata m _)).
  rewrite (mergeMetadata_insert m (metadataRequestForms s)).
  rewrite lookup_insert_eq, insert_insert_eq. f_equal.
  destruct (metadataRequestForms s !! definition m) as [prev|]; simpl.
  - now rewrite spread_again.
  - rewrite spread_self. now destruct m.
Qed.

Lemma mergeMetadata_swap m1 m2 forms :
  definition m1 <> definition m2 ->
  mergeMetadata m1 (mergeMetadata m2 forms) = mergeMetadata m2 (mergeMetadata m1 forms).
Proof.
  intros Hne.
  rewrite (mergeMetadata_insert m1 (mergeMetadata m2 _)).
  rewrite (mergeMetadata_insert m2 (mergeMetadata m1 _)).
  rewrite !(mergeMetadata_insert _ forms).
  rewrite !lookup_insert_ne by congruence.
  now apply insert_insert_ne.
Qed.

(** X12.  Forms of different metadata definitions do not interfere.
    Whichever of two is submitted first, the form pending under every
    definition key is the same: each of the two is stored as if it had been
    submitted alone, every other key keeps its form, and Update sends the
    same requests.  Only the order of the keys, and with it the order of
    the requests, can depend on the order of submission; the statement
    does not speak of it. *)
Theorem setMetadata_commutes m1 m2 s :
  definition m1 <> definition m2 ->
  let forms12 := metadataRequestForms (setMetadata m2 (setMetadata m1 s)) in
  let forms21 := metadataRequestForms (setMetadata m1 (setMetadata m2 s)) in
  (forall key, forms12 !! key = forms21 !! key)
  /\ forms12 !! definition m1
       = metadataRequestForms (setMetadata m1 s) !! definition m1
  /\ forms12 !! definition m2
       = metadataRequestForms (setMetadata m2 s) !! definition m2
  /\ (forall key, key <> definition m1 -> key <> definition m2 ->
        forms12 !! key = metadataRequestForms s !! key)
  /\ (forall r a,
        In a (fst (handleMetadataUpdateFinish r (setMetadata m2 (setMetadata m1 s))))
        <-> In a (fst (handleMetadataUpdateFinish r (setMetadata m1 (setMetadata m2 s))))).
Proof.
  intros Hne forms12 forms21.
  assert (Heq : forms12 = forms21).
  { subst forms12 forms21. simpl. now apply mergeMetadata_swap. }
  split; [now rewrite Heq|].
  split; [|split; [|split]].
  - rewrite Heq. subst forms21. simpl.
    rewrite (mergeMetadata_insert m1 (mergeMetadata m2 _)).
    rewrite (mergeMetadata_insert m2 (metadataRequestForms s)).
    rewrite (mergeMetadata_insert m1 (metadataRequestForms s)).
    rewrite !lookup_insert_eq. now rewrite lookup_insert_ne by congruence.
  - subst forms12. simpl.
    rewrite (mergeMetadata_insert m2 (mergeMetadata m1 _)).
    rewrite (mergeMetadata_insert m1 (metadataRequestForms s)).
    rewrite (mergeMetadata_insert m2 (metadataRequestForms s)).
    rewrite !lookup_insert_eq. now rewrite lookup_insert_ne by congruence.
  - intros key H1 H2. subst forms12. simpl.
    rewrite (mergeMetadata_insert m2 (mergeMetadata m1 _)).
    rewrite (mergeMetadata_insert m1 (metadataRequestForms s)).
    now rewrite !lookup_insert_ne by congruence.
  - intros r a.
    assert (Hs : setMetadata m2 (setMetadata m1 s) = setMetadata m1 (setMetadata m2 s)).
    { unfold setMetadata, setMetadataRequestForms. simpl. f_equal.
      now apply mergeMetadata_swap. }
    now rewrite Hs.
Qed.

(** X13.  A submission never drops what is pending: the set of pending
    definitions grows by the submitted one only, every pending form keeps
    all the fields it had, nothing is dispatched and no other state cell
    changes. *)
Theorem setMetadata_keeps_pending_fields w m :
  let forms := metadataRequestForms (state w) in
  let w' := step w (SubmitMetadata m) in
  let forms' := metadataRequestForms (state w') in
  dom forms' = {[ definition m ]} ∪ dom forms
  /\ (forall key prev, forms !! key = Some prev ->
        exists stored, forms' !! key = Some stored
                       /\ dom (content prev) ⊆ dom (content stored))
  /\ w' = mkWorld (route w) (selected w)
            (setMetadataRequestForms (fun _ => forms') (state w)) (dispatched w).
Proof.
  intros forms w' forms'.
  assert (Hw : w' = mkWorld (route w) (selected w) (setMetadata m (state w))
                      (dispatched w)).
  { subst w'. simpl. now rewrite afterHandler_same. }
  assert (Hf : forms' = mergeMetadata m forms) by (subst forms'; now rewrite Hw).
  split; [|split].
  - rewrite Hf, mergeMetadata_insert. apply dom_insert_L.
  - intros key prev Hprev. rewrite Hf, mergeMetadata_insert.
    destruct (decide (key = definition m)) as [->|Hne].
    + rewrite lookup_insert_eq, Hprev. eexists. split; [reflexivity|].
      simpl. unfold spread. rewrite dom_union_L. set_solver.
    + rewrite lookup_insert_ne by congruence. now exists prev.
  - rewrite Hf. exact Hw.
Qed.

(** *** The Update button *)

(** X14.  [handleMetadataUpdateFinish] sends one request per pending form,
    a patch when the form has a non-empty [id] and a post otherwise (also
    for the empty-string [id]), then one refetch of the dataset's metadata,
    last; it never deletes; afterwards no form is pending, the editor is
    closed and the paging cells are untouched. *)
Theorem update_submits_every_form r s :
  let reqs := fst (handleMetadataUpdateFinish r s) in
  let s' := snd (handleMetadataUpdateFinish r s) in
  let forms := metadataRequestForms s in
  metadataRequestForms s' = ∅
  /\ enableAddMetadata s' = false
  /\ samePaging s s'
  /\ length reqs = S (size forms)
  /\ last reqs = Some (fetchDatasetMetadata (datasetId r))
  /\ (forall d form,
        In (patchDatasetMetadata d form) reqs <->
        d = datasetId r
        /\ (exists i, id form = Some i /\ i <> "")
        /\ exists key, forms !! key = Some form)
  /\ (forall d form,
        In (postDatasetMetadata d form) reqs <->
        d = datasetId r
        /\ (id form = None \/ id form = Some "")
        /\ exists key, forms !! key = Some form)
  /\ (forall d form, ~ In (deleteDatasetMetadata d form) reqs)
  /\ (forall d, In (fetchDatasetMetadata d) reqs -> d = datasetId r).
Proof.
  intros reqs s' forms. subst reqs s'. simpl. fold forms.
  assert (Hin : forall a,
            In a (map (fun kv => submitForm (datasetId r) (snd kv)) (map_to_list forms)
                    ++ [fetchDatasetMetadata (datasetId r)])%list <->
            a = fetchDatasetMetadata (datasetId r)
            \/ exists key form, forms !! key = Some form
                                /\ a = submitForm (datasetId r) form).
  { intros a. rewrite in_app_iff, in_map_iff. simpl. split.
    - intros [((key & form) & <- & Hkv) | [<- | []]]; [right | now left].
      exists key, form. split; [|reflexivity].
      now apply elem_of_map_to_list, list_elem_of_In.
    - intros [-> | (key & form & Hk & ->)]; [right; now left | left].
      exists (key, form). split; [reflexivity|].
      now apply list_elem_of_In, elem_of_map_to_list. }
  assert (Hpost : forall form : Metadata JsValue, hasId form = false <->
                               id form = None \/ id form = Some "").
  { intros form. unfold hasId. destruct (id form) as [i|].
    - rewrite negb_false_iff, String.eqb_eq. split.
      + intros ->. now right.
      + intros [H | [= ->]]; [discriminate | reflexivity].
    - split; [now left | reflexivity]. }
  split; [reflexivity|]. split; [reflexivity|].
  split; [now repeat split|].
  split; [rewrite length_app, length_map, length_map_to_list; simpl; lia|].
  split; [apply last_snoc|].
  split; [|split; [|split]].
  - intros d form. rewrite Hin, <- hasId_spec. unfold submitForm. split.
    + intros [H | (key & form' & Hk & H)]; [discriminate|].
      destruct (hasId form') eqn:E; [|discriminate].
      injection H as -> ->. eauto.
    + intros (-> & Hid & key & Hk). right. exists key, form.
      split; [exact Hk|]. now rewrite Hid.
  - intros d form. rewrite Hin, <- Hpost. unfold submitForm. split.
    + intros [H | (key & form' & Hk & H)]; [discriminate|].
      destruct (hasId form') eqn:E; [discriminate|].
      injection H as -> ->. eauto.
    + intros (-> & Hid & key & Hk). right. exists key, form.
      split; [exact Hk|]. now rewrite Hid.
  - intros d form. rewrite Hin. unfold submitForm.
    intros [H | (key & form' & _ & H)]; [discriminate|].
    destruct (hasId form'); discriminate.
  - intros d. rewrite Hin. unfold submitForm.
    intros [[= ->] | (key & form' & _ & H)]; [reflexivity|].
    destruct (hasId form'); discriminate.
Qed.

(** X15.  With nothing pending, two forms of one definition submitted one
    after the other and then Update: one request carries the merged
    content under the second form's [id], followed by the refetch. *)
Theorem merged_form_is_sent_once r s m1 m2 :
  metadataRequestForms s = ∅ ->
  definition m1 = definition m2 ->
  fst (handleMetadataUpdateFinish r (setMetadata m2 (setMetadata m1 s))) =
    [ submitForm (datasetId r)
        (mkMetadata (definition m2) (spread (content m1) (content m2)) (id m2));
      fetchDatasetMetadata (datasetId r) ].
Proof.
  intros Hempty Hdef. simpl.
  rewrite (mergeMetadata_insert m2 (mergeMetadata m1 _)).
  rewrite (mergeMetadata_insert m1 (metadataRequestForms s)).
  rewrite Hempty, lookup_empty, <- Hdef, lookup_insert_eq, insert_insert_eq.
  rewrite insert_empty, map_to_list_singleton. reflexivity.
Qed.

(** *** The User Metadata panel *)

Lemma previous_enableAddMetadata s :
  enableAddMetadata (previous s) = enableAddMetadata s.
Proof. unfold previous. now destruct (currPageNum s - 1 >=? 0). Qed.

Lemma next_enableAddMetadata (sel : Selected FileOut FolderOut) s :
  enableAddMetadata (next sel s) = enableAddMetadata s.
Proof. unfold next. now destruct (nextGuard sel s). Qed.

Lemma afterHandler_enableAddMetadata w s' :
  enableAddMetadata (state (afterHandler w s')) = enableAddMetadata s'.
Proof.
  unfold afterHandler. case_bool_decide; [reflexivity|].
  rewrite state_runEffect. simpl. unfold skipEffect.
  destruct (skip s') as [k|]; [|reflexivity]. now destruct (k =? 0).
Qed.

Lemma step_enableAddMetadata w (e : Event FileOut FolderOut JsValue) :
  enableAddMetadata (state (step w e)) = enableAddMetadata (state w).
Proof.
  destruct e; simpl; rewrite ?afterHandler_enableAddMetadata.
  - apply previous_enableAddMetadata.
  - apply next_enableAddMetadata.
  - reflexivity.
  - reflexivity.
  - reflexivity.
  - rewrite state_runEffect. simpl. now rewrite nextDisabledEffect_spec.
  - reflexivity.
  - reflexivity.
  - reflexivity.
  - reflexivity.
Qed.

Lemma reachable_enableAddMetadata r (sel : Selected FileOut FolderOut)
    (es : list (Event FileOut FolderOut JsValue)) :
  enableAddMetadata (state (run (mount r sel) es)) = false.
Proof.
  assert (H0 : enableAddMetadata
                 (state (mount r sel : World FileOut FolderOut JsValue)) = false).
  { unfold mount. rewrite !state_runEffect. simpl.
    now rewrite nextDisabledEffect_spec. }
  revert H0. generalize (mount r sel : World FileOut FolderOut JsValue).
  induction es as [|e es IH]; intros w0 H0; simpl; [exact H0|].
  apply IH. now rewrite step_enableAddMetadata.
Qed.

(** X16.  The Add Metadata button is rendered in no panel, whatever the
    role and the state: its branch is taken only when the condition that
    would show it is false.  The editor with Update and Cancel is rendered
    exactly when [enableAddMetadata] holds for a role that passes the gate;
    Cancel and Update clear that flag and no event of the view sets it, so
    after every sequence of events from the first render the panel holds
    the metadata display alone. *)
Theorem add_metadata_button_never_rendered r (ro : option string) s :
  (forall v i children d,
     In (TabPanel v i children) (tabPanels r ro s) ->
     ~ In (Button "Add Metadata" d) children)
  /\ (In (TabPanel (selectedTabIndex s) 2
           [EditMetadata (datasetId r); Button "Update" false;
            Button "Cancel" false]) (tabPanels r ro s)
      <-> enableAddMetadata s = true /\ ro <> None /\ ro <> Some "viewer")
  /\ (enableAddMetadata (cancelAddMetadata s) = false
      /\ enableAddMetadata (snd (handleMetadataUpdateFinish r s)) = false)
  /\ (forall (sel : Selected FileOut FolderOut)
        (es : list (Event FileOut FolderOut JsValue)),
        let w := run (mount r sel) es in
        In (TabPanel (selectedTabIndex (state w)) 2
              [DisplayMetadata (datasetId (route w))])
           (tabPanels (route w) (role (selected w)) (state w))).
Proof.
  split; [|split; [|split; [now split|]]].
  - intros v i children d. unfold tabPanels.
    destruct (enableAddMetadata s), (roleGate ro), (bool_decide (folderId r ≠ None));
      simpl; intros Hin Hb;
      repeat match goal with
             | H : _ \/ _ |- _ => destruct H
             | H : False |- _ => destruct H
             | H : TabPanel _ _ _ = TabPanel _ _ _ |- _ =>
                 injection H as <- <- <-; simpl in Hb
             | H : Fragment = _ |- _ => discriminate H
             end; discriminate.
  - rewrite <- roleGate_spec. unfold tabPanels.
    destruct (enableAddMetadata s), (roleGate ro), (bool_decide (folderId r ≠ None));
      simpl; split;
      try (intros [? ?]; discriminate);
      try (intros _; auto 10; fail);
      intros Hin;
      repeat match goal with
             | H : _ \/ _ |- _ => destruct H
             | H : False |- _ => destruct H
             end; try discriminate; auto.
  - intros sel es w. unfold tabPanels.
    rewrite (reachable_enableAddMetadata r sel es : enableAddMetadata (state w) = _).
    simpl. auto.
Qed.

End Forms.

(** Witness of X12: a position and a DOI. *)
Lemma setMetadata_commutes_witness :
  let lat : Metadata Z := mkMetadata "LatLon" {[ "lat" := 40 ]} None in
  let doi : Metadata Z := mkMetadata "DOI" {[ "doi" := 7 ]} (Some "m1") in
  let forms12 := metadataRequestForms (setMetadata doi (setMetadata lat initialState)) in
  let forms21 := metadataRequestForms (setMetadata lat (setMetadata doi initialState)) in
  definition lat <> definition doi
  /\ (forall key, forms12 !! key = forms21 !! key)
  /\ forms12 !! "LatLon" = Some lat
  /\ forms12 !! "DOI" = Some doi.
Proof.
  intros lat doi forms12 forms21.
  assert (H : definition lat <> definition doi) by discriminate.
  destruct (setMetadata_commutes lat doi initialState H) as (H1 & H2 & H3 & _).
  split; [exact H|]. split; [exact H1|].
  split; [exact H2 | exact H3].
Defined.

(** Witness of X15: latitude, then longitude with a stored id. *)
Lemma merged_form_is_sent_once_witness :
  let r := mkRoute (Some "d") None in
  let lat : Metadata Z := mkMetadata "LatLon" {[ "lat" := 40 ]} None in
  let lon : Metadata Z := mkMetadata "LatLon" {[ "lon" := -88 ]} (Some "m1") in
  metadataRequestForms (initialState (JsValue:=Z)) = ∅
  /\ definition lat = definition lon
  /\ fst (handleMetadataUpdateFinish r
            (setMetadata lon (setMetadata lat initialState))) =
       [ submitForm (Some "d")
           (mkMetadata "LatLon" (spread (content lat) (content lon)) (Some "m1"));
         fetchDatasetMetadata (Some "d") ].
Proof.
  intros r lat lon.
  assert (H1 : metadataRequestForms (initialState (JsValue:=Z)) = ∅) by reflexivity.
  assert (H2 : definition lat = definition lon) by reflexivity.
  split; [exact H1|]. split; [exact H2|].
  exact (merged_form_is_sent_once r initialState lat lon H1 H2).
Defined.

End MetadataBehaviour.

(* ===================================================================== *)
(** ** Further behaviour of the share / change-role dialog *)
(* ===================================================================== *)

Module DialogBehaviour.
Import ChangeDatasetRoleModal ModalFacts.

Lemma step_empty_email (w : World) (e : Event) :
  email (state w) = "" ->
  email (state (step w e)) = "" /\ dispatched (step w e) = dispatched w
  /\ datasetId (step w e) = datasetId w.
Proof.
  intros H. destruct e; simpl.
  - rewrite (shareDisabled_empty _ H). now repeat split.
  - now repeat split.
  - now repeat split.
  - now repeat split.
Qed.

(** X17.  Once the email field is empty it stays empty: whatever the user
    does next the Share button stays disabled and no role assignment is
    dispatched. *)
Theorem empty_email_is_final (w : World) (es : list Event) :
  email (state w) = "" ->
  let w' := run w es in
  email (state w') = ""
  /\ shareDisabled (state w') = true
  /\ dispatched w' = dispatched w.
Proof.
  revert w. induction es as [|e es IH]; intros w H; simpl.
  - split; [exact H|]. split; [now apply shareDisabled_empty | reflexivity].
  - destruct (step_empty_email w e H) as (He & Hd & _).
    destruct (IH (step w e) He) as (IH1 & IH2 & IH3).
    split; [exact IH1|]. split; [exact IH2|]. now rewrite <- Hd.
Qed.

(** X18.  One dialog shares at most once and only with the user it was
    opened for: after every sequence of events from its first render either
    nothing was dispatched, the email field still holds [currentUser] and
    the alert is hidden, or exactly one role assignment was dispatched, for
    the dataset of the route and for [currentUser], and the email field is
    empty.  The success alert is never up before a share. *)
Theorem dialog_shares_at_most_once
    (props : Props) (d : option string) (es : list Event) :
  let w := run (initialWorld props d) es in
  ((dispatched w = []
    /\ email (state w) = currentUser props
    /\ showSuccessAlert (state w) = false)
   \/ (exists ro, dispatched w = [ setDatasetUserRole d (currentUser props) ro ]
                  /\ currentUser props <> ""
                  /\ email (state w) = ""))
  /\ (showSuccessAlert (state w) = true -> dispatched w <> []).
Proof.
  intros w.
  assert (H : datasetId w = d
              /\ ((dispatched w = []
                   /\ email (state w) = currentUser props
                   /\ showSuccessAlert (state w) = false)
                  \/ (exists ro,
                        dispatched w = [ setDatasetUserRole d (currentUser props) ro ]
                        /\ currentUser props <> ""
                        /\ email (state w) = ""))).
  { subst w.
    assert (H0 : datasetId (initialWorld props d) = d
                 /\ ((dispatched (initialWorld props d) = []
                      /\ email (state (initialWorld props d)) = currentUser props
                      /\ showSuccessAlert (state (initialWorld props d)) = false)
                     \/ (exists ro,
                           dispatched (initialWorld props d)
                           = [ setDatasetUserRole d (currentUser props) ro ]
                           /\ currentUser props <> ""
                           /\ email (state (initialWorld props d)) = "")))
      by (split; [reflexivity | left; now repeat split]).
    revert H0. generalize (initialWorld props d).
    induction es as [|e es IH]; intros w0 H0; simpl; [exact H0|].
    apply IH. destruct H0 as (Hd & [(Hlog & Hem & Hal) | (ro & Hlog & Hcu & Hem)]).
    - destruct e; simpl.
      + destruct (string_dec (email (state w0)) "") as [He|He].
        * rewrite (shareDisabled_empty _ He). split; [exact Hd|]. left. now repeat split.
        * rewrite (shareDisabled_nonempty _ He). simpl.
          split; [exact Hd|]. right. exists (role (state w0)).
          rewrite Hlog, Hd, Hem. split; [reflexivity|]. split; [congruence|reflexivity].
      + split; [exact Hd|]. left. now repeat split.
      + split; [exact Hd|]. left. now repeat split.
      + split; [exact Hd|]. left. now repeat split.
    - destruct (step_empty_email w0 e Hem) as (He' & Hd' & Hid).
      split; [congruence|]. right. exists ro. rewrite Hd'. now repeat split. }
  destruct H as (_ & H). split; [exact H|].
  intros Hal. destruct H as [(_ & _ & Hf) | (ro & -> & _)]; [congruence|discriminate].
Qed.

(** Witness of X17: after one share. *)
Lemma empty_email_is_final_witness :
  let w0 := initialWorld (mkProps true "rivers" "editor" "ann@example.org") (Some "d") in
  let w := step w0 ClickShare in
  let w' := run w [SelectRole "owner"; ClickShare; CloseAlert; ClickShare] in
  email (state w) = ""
  /\ email (state w') = ""
  /\ shareDisabled (state w') = true
  /\ dispatched w' = dispatched w.
Proof.
  intros w0 w w'.
  assert (H : email (state w) = "") by reflexivity.
  split; [exact H|].
  exact (empty_email_is_final w [SelectRole "owner"; ClickShare; CloseAlert; ClickShare] H).
Defined.

End DialogBehaviour.
